(** * lfs-auto-grader: the report adapter and the task orchestrator

A shallow embedding of [internal/adapters/lfs1.go] (both revisions of
the pytest report adapter) and of [internal/manager] (the orchestrator:
[Start], [failSoln], [run], [buildExecuteConfig], [processMessage]),
followed by the properties of the execution-and-reporting engine.

Conventions.
- A Go [int]/[int64] is a [Z] together with the two's-complement
  wrap-around [wrap64] written at every addition and multiplication.
- A Go [float64] is an IEEE-754 binary64 value, [spec_float] with
  precision 53 and maximal exponent 1024.
- A Go [string] is a byte string; [len] is [String.length].
- A Go [map[string]string] is a [gmap string string].
- An [error] is its text; a fallible call returns [string + A].
- Calls to the remote queue, to the file system and to the container
  backend are recorded in order in an event trace. *)

From Stdlib Require Import ZArith String Ascii List SpecFloat DecimalString Lia.
From stdpp Require Import gmap strings list fin_maps.

Local Open Scope string_scope.
Local Open Scope Z_scope.

(** ** Go primitives *)
Module golang.

(** Two's-complement 64-bit wrap-around of [int] and [int64]. *)
Definition wrap64 (z : Z) : Z := (z + 2 ^ 63) mod 2 ^ 64 - 2 ^ 63.

Definition int_range (z : Z) : Prop := - 2 ^ 63 <= z < 2 ^ 63.

Definition int_add (a b : Z) : Z := wrap64 (a + b).

Definition int_mul (a b : Z) : Z := wrap64 (a * b).

(** binary64 *)
Definition float64 : Type := spec_float.

Definition f64_zero : float64 := S754_zero false.

(** The conversion [float64(n)] of an integer: round to nearest even. *)
Definition f64_of_int (z : Z) : float64 := binary_normalize 53 1024 z 0 false.

Definition f64_div (x y : float64) : float64 := SFdiv 53 1024 x y.

Definition f64_mul (x y : float64) : float64 := SFmul 53 1024 x y.

(** The verb [%d] of [fmt.Sprintf]: signed decimal. *)
Definition fmt_d (z : Z) : string := NilZero.string_of_int (Z.to_int z).

(** [strings.Split s sep] for a non-empty separator: the pieces between
    the non-overlapping occurrences of [sep], scanned from the left.
    [skip] counts the bytes of a matched separator still to be dropped and
    [cur] holds the current piece, last byte first. *)
Fixpoint split_go (sep : string) (skip : nat) (cur : list ascii) (s : string)
  : list string :=
  match s with
  | EmptyString => [string_of_list_ascii (rev cur)]
  | String c s' =>
      match skip with
      | S k => split_go sep k cur s'
      | O =>
          if String.prefix sep s
          then string_of_list_ascii (rev cur)
                 :: split_go sep (Nat.pred (String.length sep)) [] s'
          else split_go sep O (c :: cur) s'
      end
  end.

Definition strings_Split (s sep : string) : list string := split_go sep O [] s.

(** The slice expression [s[:n]] for [n <= len s]. *)
Definition slice_to (n : nat) (s : string) : string := String.substring 0 n s.

End golang.

Import golang.

(** ** pkg/aoiclient: the queue-side data *)
Module aoiclient.

(** Modelled from the spec: the status constants of [pkg/aoiclient], a
    package this development does not embed; the values are the enumerated
    status values of the protocol ("Accepted", "Wrong Answer", "Time Limit
    Exceeded", "Memory Limit Exceeded", "Runtime Error", "Compile Error",
    "Error"). *)
Definition StatusAccepted : string := "Accepted".
Definition StatusWrongAnswer : string := "Wrong Answer".
Definition StatusTimeLimitExceeded : string := "Time Limit Exceeded".
Definition StatusMemoryLimitExceeded : string := "Memory Limit Exceeded".
Definition StatusRuntimeError : string := "Runtime Error".
Definition StatusCompileError : string := "Compile Error".
Definition StatusError : string := "Error".

(** Modelled from the spec: the canonical enumerated set of status
    values. *)
Definition enumerated_statuses : list string :=
  [StatusAccepted; StatusWrongAnswer; StatusTimeLimitExceeded;
   StatusMemoryLimitExceeded; StatusRuntimeError; StatusCompileError;
   StatusError].

Module SolutionInfo.
Record t : Type := mk {
  Score : float64;
  Status : string;
  Message : string
}.
End SolutionInfo.

Module SolutionDetailsTest.
Record t : Type := mk {
  Name : string;
  Score : float64;
  ScoreScale : float64;
  Status : string;
  Summary : string
}.
End SolutionDetailsTest.

Module SolutionDetailsJob.
Record t : Type := mk {
  Name : string;
  Score : float64;
  ScoreScale : float64;
  Status : string;
  Summary : string;
  Tests : list SolutionDetailsTest.t
}.
End SolutionDetailsJob.

Module SolutionDetails.
Record t : Type := mk {
  Version : Z;
  Summary : string;
  Jobs : list SolutionDetailsJob.t
}.
End SolutionDetails.

(** [SolutionPoll]: only the fields the orchestrator reads. *)
Module JudgeConfig.
Record t : Type := mk {
  Adapter : string;
  Config : string
}.
End JudgeConfig.

Module ProblemConfig.
Record t : Type := mk {
  Label : string;
  Judge : JudgeConfig.t
}.
End ProblemConfig.

Module SolutionPoll.
Record t : Type := mk {
  SolutionId : string;
  TaskId : string;
  UserId : string;
  ContestId : string;
  SolutionDataUrl : string;
  SolutionDataHash : string;
  ProblemDataUrl : string;
  ProblemDataHash : string;
  ProblemConfig : ProblemConfig.t
}.
End SolutionPoll.

End aoiclient.

(** ** internal/adapters/lfs1.go, first revision (no expected failures) *)
Module adapters_v1.
Import aoiclient.

Module PytestReportSummary.
Record t : Type := mk {
  Passed : Z;
  Failed : Z;
  Skipped : Z;
  Total : Z;
  Collected : Z
}.
End PytestReportSummary.

Module PytestReport.
Record t : Type := mk {
  Created : float64;
  Duration : float64;
  ExitCode : Z;
  Root : string;
  Summary : PytestReportSummary.t
}.
End PytestReport.

Module LFS1Result.
Record t : Type := mk {
  Score : float64;
  Status : string;
  Message : string;
  Details : SolutionDetails.t
}.
End LFS1Result.

Section CalculateScore.

(** The verb [%.2f] of [fmt.Sprintf]; the decimal rendering of a
    binary64 value is left to the caller. *)
Variable fmt_2f : float64 -> string.

Definition score_of (passed total : Z) : float64 :=
  if 0 <? total
  then f64_mul (f64_div (f64_of_int passed) (f64_of_int total)) (f64_of_int 100)
  else f64_zero.

(** The [if]/[else if]/[else] chain that sets [status] and [message]. *)
Definition verdict (failed passed total : Z) : string * string :=
  if (failed =? 0) && (passed =? total)
  then (StatusAccepted,
        "全部通过 " ++ fmt_d passed ++ "/" ++ fmt_d total ++ " 测试点")
  else if 0 <? passed
  then (StatusWrongAnswer,
        "通过 " ++ fmt_d passed ++ "/" ++ fmt_d total ++ " 测试点，失败 "
          ++ fmt_d failed ++ " 个")
  else (StatusWrongAnswer, "未通过任何测试点 (0/" ++ fmt_d total ++ ")").

Definition skipped_suffix (skipped : Z) : string :=
  if 0 <? skipped then "，跳过 " ++ fmt_d skipped ++ " 个" else "".

Definition CalculateScore (report : PytestReport.t) : LFS1Result.t :=
  let summary := PytestReport.Summary report in
  let total := PytestReportSummary.Total summary in
  let passed := PytestReportSummary.Passed summary in
  let failed := PytestReportSummary.Failed summary in
  let score := score_of passed total in
  let '(status, message) := verdict failed passed total in
  let message := message ++ skipped_suffix (PytestReportSummary.Skipped summary) in
  let details :=
    SolutionDetails.mk 1 message
      [SolutionDetailsJob.mk "pytest" score (f64_of_int 100) status
         ("执行耗时 " ++ fmt_2f (PytestReport.Duration report) ++ " 秒")
         [SolutionDetailsTest.mk "通过" (f64_of_int passed) (f64_of_int total)
            StatusAccepted (fmt_d passed ++ " 个测试通过");
          SolutionDetailsTest.mk "失败" f64_zero (f64_of_int failed)
            StatusWrongAnswer (fmt_d failed ++ " 个测试失败")]] in
  LFS1Result.mk score status message details.

End CalculateScore.

End adapters_v1.

(** ** internal/adapters/lfs1.go, second revision (expected failures count
    as passes, one job per test case) *)
Module adapters.
Import aoiclient.

Module PytestReportSummary.
Record t : Type := mk {
  Passed : Z;
  Failed : Z;
  Skipped : Z;
  XFailed : Z;
  Total : Z;
  Collected : Z
}.
End PytestReportSummary.

Module PytestCrashInfo.
Record t : Type := mk {
  Path : string;
  Lineno : Z;
  Message : string
}.
End PytestCrashInfo.

Module PytestTestPhase.
Record t : Type := mk {
  Duration : float64;
  Outcome : string;
  Crash : option PytestCrashInfo.t;
  Longrepr : string
}.
End PytestTestPhase.

Module PytestTestCase.
Record t : Type := mk {
  NodeID : string;
  Lineno : Z;
  Outcome : string;
  Keywords : list string;
  Setup : option PytestTestPhase.t;
  Call : option PytestTestPhase.t;
  Teardown : option PytestTestPhase.t
}.
End PytestTestCase.

Module PytestReport.
Record t : Type := mk {
  Created : float64;
  Duration : float64;
  ExitCode : Z;
  Root : string;
  Summary : PytestReportSummary.t;
  Tests : list PytestTestCase.t
}.
End PytestReport.

Module LFS1Result.
Record t : Type := mk {
  Score : float64;
  Status : string;
  Message : string;
  Details : SolutionDetails.t
}.
End LFS1Result.

Definition extractTestName (nodeid : string) : string :=
  let parts := strings_Split nodeid "::" in
  match List.last (List.map Some parts) None with
  | Some p => p
  | None => nodeid
  end.

Definition outcomeToStatus (outcome : string) : string :=
  if String.eqb outcome "passed" then StatusAccepted
  else if String.eqb outcome "failed" then StatusWrongAnswer
  else if String.eqb outcome "skipped" then "Skipped"
  else if String.eqb outcome "xfailed" then StatusAccepted
  else if String.eqb outcome "xpassed" then StatusAccepted
  else StatusWrongAnswer.

(** [test.Call != nil && test.Call.Crash != nil && test.Call.Crash.Message != ""] *)
Definition crash_message (test : PytestTestCase.t) : option string :=
  match PytestTestCase.Call test with
  | Some call =>
      match PytestTestPhase.Crash call with
      | Some crash =>
          if negb (String.eqb (PytestCrashInfo.Message crash) "")
          then Some (PytestCrashInfo.Message crash)
          else None
      | None => None
      end
  | None => None
  end.

(** The case ["failed"] of [generateTestSummary]. *)
Definition failed_summary (test : PytestTestCase.t) : string :=
  match crash_message test with
  | Some message => message
  | None =>
      match PytestTestCase.Call test with
      | Some call =>
          let longrepr := PytestTestPhase.Longrepr call in
          if negb (String.eqb longrepr "")
          then if (200 <? String.length longrepr)%nat
               then (slice_to 200 longrepr ++ "...")%string
               else longrepr
          else "测试失败"
      | None => "测试失败"
      end
  end.

Definition generateTestSummary (test : PytestTestCase.t) : string :=
  let outcome := PytestTestCase.Outcome test in
  if String.eqb outcome "passed" then "通过"
  else if String.eqb outcome "xfailed" then "预期失败"
  else if String.eqb outcome "xpassed" then "预期失败但通过"
  else if String.eqb outcome "skipped" then "跳过"
  else if String.eqb outcome "failed" then failed_summary test
  else outcome.

(** [passed := summary.Passed + summary.XFailed] *)
Definition passed_plus (summary : PytestReportSummary.t) : Z :=
  int_add (PytestReportSummary.Passed summary) (PytestReportSummary.XFailed summary).

Definition score_of (passed total : Z) : float64 :=
  if 0 <? total
  then f64_mul (f64_div (f64_of_int passed) (f64_of_int total)) (f64_of_int 100)
  else f64_zero.

(** The [if]/[else if]/[else] chain that sets [status] and [message]. *)
Definition verdict (failed passed total : Z) : string * string :=
  if (failed =? 0) && (passed =? total)
  then (StatusAccepted,
        "全部通过 " ++ fmt_d passed ++ "/" ++ fmt_d total ++ " 测试点")
  else if 0 <? passed
  then (StatusWrongAnswer,
        "通过 " ++ fmt_d passed ++ "/" ++ fmt_d total ++ " 测试点，失败 "
          ++ fmt_d failed ++ " 个")
  else (StatusWrongAnswer, "未通过任何测试点 (0/" ++ fmt_d total ++ ")").

Definition skipped_suffix (skipped : Z) : string :=
  if 0 <? skipped then "，跳过 " ++ fmt_d skipped ++ " 个" else "".

Definition xfailed_suffix (xfailed : Z) : string :=
  if 0 <? xfailed then "，预期失败 " ++ fmt_d xfailed ++ " 个" else "".

Definition test_job (test : PytestTestCase.t) : SolutionDetailsJob.t :=
  let outcome := PytestTestCase.Outcome test in
  let testScore :=
    if String.eqb outcome "passed" || String.eqb outcome "xfailed"
       || String.eqb outcome "xpassed"
    then f64_of_int 100 else f64_zero in
  SolutionDetailsJob.mk (extractTestName (PytestTestCase.NodeID test))
    testScore (f64_of_int 1) (outcomeToStatus outcome)
    (generateTestSummary test) [].

Definition CalculateScore (report : PytestReport.t) : LFS1Result.t :=
  let summary := PytestReport.Summary report in
  let total := PytestReportSummary.Total summary in
  let passed := passed_plus summary in
  let failed := PytestReportSummary.Failed summary in
  let score := score_of passed total in
  let '(status, message) := verdict failed passed total in
  let message := message ++ skipped_suffix (PytestReportSummary.Skipped summary) in
  let message := message ++ xfailed_suffix (PytestReportSummary.XFailed summary) in
  let jobs := List.map test_job (PytestReport.Tests report) in
  LFS1Result.mk score status message (SolutionDetails.mk 1 message jobs).

(** The first revision's view of a report: the same document decoded
    into the structs that have no [xfailed] and no [tests] field. *)
Definition to_v1 (report : PytestReport.t) : adapters_v1.PytestReport.t :=
  let s := PytestReport.Summary report in
  adapters_v1.PytestReport.mk
    (PytestReport.Created report) (PytestReport.Duration report)
    (PytestReport.ExitCode report) (PytestReport.Root report)
    (adapters_v1.PytestReportSummary.mk
       (PytestReportSummary.Passed s) (PytestReportSummary.Failed s)
       (PytestReportSummary.Skipped s) (PytestReportSummary.Total s)
       (PytestReportSummary.Collected s)).

(** *** Vocabulary for the statements about the adapter *)

Definition head_byte (s : string) : option ascii :=
  match s with
  | EmptyString => None
  | String c _ => Some c
  end.

(** The last branch of the chain in [CalculateScore]: not everything passed
    and nothing passed. *)
Definition zero_passed_branch (report : PytestReport.t) : Prop :=
  let s := PytestReport.Summary report in
  ~ (PytestReportSummary.Failed s = 0 /\ passed_plus s = PytestReportSummary.Total s)
  /\ passed_plus s <= 0.

(** The message of that branch, with the two optional suffixes. *)
Definition zero_passed_message (report : PytestReport.t) : string :=
  let s := PytestReport.Summary report in
  ((("未通过任何测试点 (0/" ++ fmt_d (PytestReportSummary.Total s) ++ ")")
      ++ skipped_suffix (PytestReportSummary.Skipped s))
     ++ xfailed_suffix (PytestReportSummary.XFailed s))%string.

End adapters.

(** ** pkg/judgerproto: the line protocol of the sandbox *)
Module judgerproto.

(** The action tag of a decoded message. The tag constants are declared in
    [pkg/judgerproto], which this development does not embed; the
    orchestrator's [switch] compares the tag with eight of them and has no
    [default], so a tag is one of the eight or some other value. *)
Inductive Action : Type :=
| ActionGreet
| ActionNoop
| ActionLog
| ActionError
| ActionPatch
| ActionDetail
| ActionComplete
| ActionQuit
| ActionOther (tag : string).

(** [Message]: the body is kept raw ([json.RawMessage]) until the
    orchestrator unmarshals it for the action at hand. *)
Module Message.
Record t : Type := mk {
  Timestamp : string;
  Action : judgerproto.Action;
  Body : string
}.
End Message.

End judgerproto.

(** ** internal/executor: what the orchestrator passes and receives *)
Module executor.

Module Mount.
Record t : Type := mk {
  Source : string;
  Target : string;
  ReadOnly : bool
}.
End Mount.

Module ExecuteConfig.
Record t : Type := mk {
  Image : string;
  Command : list string;
  Timeout : Z;
  MemoryLimit : Z;
  CPULimit : float64;
  Env : gmap string string;
  WorkDir : string;
  Mounts : list Mount.t
}.
End ExecuteConfig.

Module ExecuteResult.
Record t : Type := mk {
  ExitCode : Z;
  TimedOut : bool;
  OOM : bool
}.
End ExecuteResult.

(** [DockerExecutor.ExecuteWithLogs ctx config onLine]: given the context's
    timeout (a [time.Duration], in nanoseconds) and the configuration, the
    backend delivers the output lines to the callback, in order, and then
    returns a result or an error. The callback of the orchestrator always
    returns [nil], so the lines do not depend on it. *)
Module DockerExecutor.
Record t : Type := mk {
  ExecuteWithLogs : Z -> ExecuteConfig.t -> list string * (string + ExecuteResult.t)
}.
End DockerExecutor.

End executor.

(** ** internal/manager: the task orchestrator *)
Module manager.
Import aoiclient judgerproto executor.

Module MountConfig.
Record t : Type := mk {
  Source : string;
  Target : string;
  ReadOnly : bool
}.
End MountConfig.

(** A decoded JSON value of Go type [any]: the orchestrator only asks
    whether it is a string. *)
Inductive any : Type :=
| any_string (s : string)
| any_other (raw : string).

Module RunningConfig.
Record t : Type := mk {
  Image : string;
  PreCmd : list string;
  DockerCmd : list string;
  PostCmd : list string;
  Timeout : Z;
  MemoryLimit : Z;
  CPULimit : float64;
  Env : gmap string string;
  WorkDir : string;
  Mounts : list MountConfig.t; Variables : option (gmap string any)
}.
End RunningConfig.

(** [config.ManagerConfig]: the field read while a task is processed. *)
Module ManagerConfig.
Record t : Type := mk {
  SharedVolumePath : string
}.
End ManagerConfig.

Module Manager.
Record t : Type := mk {
  conf : ManagerConfig.t;
  exec : DockerExecutor.t
}.
End Manager.

(** [aoiclient.SolutionClient], the handle [m.aoi.Solution(solutionId, taskId)]. *)
Module SolutionClient.
Record t : Type := mk {
  SolutionID : string;
  TaskID : string
}.
End SolutionClient.

(** The observable effects of processing a task, in program order: the
    three calls on the queue, the start of the container, and the deferred
    removal of the output directory. Log lines are not recorded; the error
    a queue call may return is only ever logged. *)
Inductive Event : Type :=
| Patch (aoi : SolutionClient.t) (info : SolutionInfo.t)
| SaveDetails (aoi : SolutionClient.t) (details : SolutionDetails.t)
| Complete (aoi : SolutionClient.t)
| Execute (timeout_ns : Z) (config : ExecuteConfig.t)
| RemoveAll (dir : string).

(** Effects and errors: a trace together with an error text or a value. *)
Definition M (A : Type) : Type := (list Event * (string + A))%type.

Definition ret {A : Type} (a : A) : M A := ([], inr a).

Definition bind {A B : Type} (m : M A) (k : A -> M B) : M B :=
  match m with
  | (t, inl e) => (t, inl e)
  | (t, inr a) => let '(t', r) := k a in (app t t', r)
  end.

Definition emit (e : Event) : M unit := ([e], inr tt).

Definition emits (t : list Event) : M unit := (t, inr tt).

Definition fail {A : Type} (e : string) : M A := ([], inl e).

(** [if err != nil { return fmt.Errorf(prefix + ": %w", err) }] *)
Definition try {A : Type} (prefix : string) (r : string + A) : M A :=
  match r with
  | inl e => fail (prefix ++ e)%string
  | inr a => ret a
  end.

(** [defer]: the deferred effects run on every way out. *)
Definition defer {A : Type} (d : list Event) (m : M A) : M A :=
  let '(t, r) := m in (app t d, r).

Notation "'let*' x ':=' m 'in' k" := (bind m (fun x => k))
  (at level 10, x name, m at level 100, k at level 200).

(** The standard library and the operating system as the orchestrator uses
    them. [encoding/json] is taken at the Go types it is called at; a
    decoding step that only reports success returns an [option]. *)
Module Runtime.
Record t : Type := mk {
  json_Unmarshal_RunningConfig : string -> string + RunningConfig.t;
  json_Marshal_Variables : gmap string any -> string + string;
  json_Unmarshal_PytestReport : string -> string + adapters.PytestReport.t;
  MessageFromString : string -> option Message.t;
  json_Unmarshal_LogBody : string -> option string;
  json_Unmarshal_ErrorBody : string -> option string;
  json_Unmarshal_PatchBody : string -> option SolutionInfo.t;
  json_Unmarshal_DetailBody : string -> option SolutionDetails.t;
  os_MkdirTemp : string -> string + string;
  os_Stat : string -> bool;
  os_ReadFile : string -> string + string;
  filepath_Join : string -> string -> string
}.
End Runtime.

Section Orchestrator.

Variable R : Runtime.t.

(** [aoiclient.StatusInternalError]; its value is declared in
    [pkg/aoiclient]. *)
Variable StatusInternalError : string.

Definition Solution (soln : SolutionPoll.t) : SolutionClient.t :=
  SolutionClient.mk (SolutionPoll.SolutionId soln) (SolutionPoll.TaskId soln).

Definition failSoln (soln : SolutionPoll.t) (reason : string) : list Event :=
  let s := Solution soln in
  [Patch s (SolutionInfo.mk f64_zero StatusError reason);
   SaveDetails s (SolutionDetails.mk 0 reason []);
   Complete s].

Definition processMessage (msg : string) (aoi : SolutionClient.t) : list Event :=
  match Runtime.MessageFromString R msg with
  | None => []
  | Some parsed =>
      match Message.Action parsed with
      | ActionGreet => []
      | ActionNoop => []
      | ActionLog =>
          match Runtime.json_Unmarshal_LogBody R (Message.Body parsed) with
          | Some _ => []
          | None => []
          end
      | ActionError =>
          match Runtime.json_Unmarshal_ErrorBody R (Message.Body parsed) with
          | Some body => [Patch aoi (SolutionInfo.mk f64_zero StatusInternalError body)]
          | None => []
          end
      | ActionPatch =>
          match Runtime.json_Unmarshal_PatchBody R (Message.Body parsed) with
          | Some body => [Patch aoi body]
          | None => []
          end
      | ActionDetail =>
          match Runtime.json_Unmarshal_DetailBody R (Message.Body parsed) with
          | Some body => [SaveDetails aoi body]
          | None => []
          end
      | ActionComplete => [Complete aoi]
      | ActionQuit => []
      | ActionOther _ => []
      end
  end.

(** The callback handed to the executor: it processes the line and
    returns [nil]. *)
Definition onLine (aoi : SolutionClient.t) (line : string) : list Event * option string :=
  (processMessage line aoi, None).

Definition ParsePytestReportFromBytes (data : string) : string + adapters.PytestReport.t :=
  match Runtime.json_Unmarshal_PytestReport R data with
  | inl e => inl ("failed to parse report JSON: " ++ e)%string
  | inr report => inr report
  end.

Definition ParsePytestReport (filepath : string) : string + adapters.PytestReport.t :=
  match Runtime.os_ReadFile R filepath with
  | inl e => inl ("failed to read report file: " ++ e)%string
  | inr data => ParsePytestReportFromBytes data
  end.

(** The environment of the container, in the order of the assignments. *)
Definition build_env (soln : SolutionPoll.t) (rc : RunningConfig.t) : gmap string string :=
  let env : gmap string string := ∅ in
  let env := map_fold (fun k v (acc : gmap string string) => <[k := v]> acc) env
               (RunningConfig.Env rc) in
  let env := <["SOLUTION_ID" := SolutionPoll.SolutionId soln]> env in
  let env := <["TASK_ID" := SolutionPoll.TaskId soln]> env in
  let env := <["USER_ID" := SolutionPoll.UserId soln]> env in
  let env := <["CONTEST_ID" := SolutionPoll.ContestId soln]> env in
  let env := <["SOLUTION_DATA_URL" := SolutionPoll.SolutionDataUrl soln]> env in
  let env := <["SOLUTION_DATA_HASH" := SolutionPoll.SolutionDataHash soln]> env in
  let env := <["PROBLEM_DATA_URL" := SolutionPoll.ProblemDataUrl soln]> env in
  let env := <["PROBLEM_DATA_HASH" := SolutionPoll.ProblemDataHash soln]> env in
  let env := <["PROBLEM_LABEL" := ProblemConfig.Label (SolutionPoll.ProblemConfig soln)]> env in
  let env := <["JUDGE_ADAPTER" :=
                 JudgeConfig.Adapter (ProblemConfig.Judge (SolutionPoll.ProblemConfig soln))]> env in
  let env :=
    match RunningConfig.Variables rc with
    | Some vars =>
        match Runtime.json_Marshal_Variables R vars with
        | inr varsJSON => <["JUDGE_VARIABLES" := varsJSON]> env
        | inl _ => env
        end
    | None => env
    end in
  <["OUTPUT_DIR" := "/output"]> env.

Definition build_mounts (m : Manager.t) (rc : RunningConfig.t) (outputDir : string)
  : list Mount.t :=
  let mounts : list Mount.t := [] in
  let mounts := app mounts [Mount.mk outputDir "/output" false] in
  let mounts :=
    app mounts
      (List.map (fun mount => Mount.mk (MountConfig.Source mount) (MountConfig.Target mount)
                              (MountConfig.ReadOnly mount))
         (RunningConfig.Mounts rc)) in
  let shared := ManagerConfig.SharedVolumePath (Manager.conf m) in
  if negb (String.eqb shared "")
  then app mounts [Mount.mk shared "/data" true;
                   Mount.mk (shared ++ "/uv-cache")%string "/root/.cache/uv" false]
  else mounts.

Definition buildExecuteConfig (m : Manager.t) (soln : SolutionPoll.t)
    (rc : RunningConfig.t) (outputDir : string) : string + ExecuteConfig.t :=
  let command := RunningConfig.DockerCmd rc in
  if (length command =? 0)%nat
  then inl "docker_cmd is required in judge config"
  else
    let workDir :=
      if String.eqb (RunningConfig.WorkDir rc) "" then "/home/judge"
      else RunningConfig.WorkDir rc in
    let timeout :=
      if RunningConfig.Timeout rc =? 0 then 600 else RunningConfig.Timeout rc in
    let memoryLimit :=
      if RunningConfig.MemoryLimit rc =? 0 then 2048 else RunningConfig.MemoryLimit rc in
    inr (ExecuteConfig.mk (RunningConfig.Image rc) command timeout memoryLimit
           (RunningConfig.CPULimit rc) (build_env soln rc) workDir
           (build_mounts m rc outputDir)).

(** [time.Duration(execConfig.Timeout+10)*time.Second], in nanoseconds. *)
Definition context_timeout (config : ExecuteConfig.t) : Z :=
  int_mul (int_add (ExecuteConfig.Timeout config) 10) 1000000000.

Definition reportFileName (rc : RunningConfig.t) : string :=
  match RunningConfig.Variables rc with
  | Some vars =>
      match vars !! "report_name" with
      | Some (any_string reportName) =>
          if negb (String.eqb reportName "") then reportName else "report.json"
      | _ => "report.json"
      end
  | None => "report.json"
  end.

(** The adapter step of [run]: the value is [reportProcessed]. *)
Definition process_report (soln : SolutionPoll.t) (rc : RunningConfig.t)
    (outputDir : string) (aoi : SolutionClient.t) : M bool :=
  let adapter := JudgeConfig.Adapter (ProblemConfig.Judge (SolutionPoll.ProblemConfig soln)) in
  if String.eqb adapter "lfs1"
  then
    let reportPath := Runtime.filepath_Join R outputDir (reportFileName rc) in
    if Runtime.os_Stat R reportPath
    then
      match ParsePytestReport reportPath with
      | inl err =>
          let* _ := emit (Patch aoi (SolutionInfo.mk f64_zero StatusInternalError
                             ("解析评测报告失败: " ++ err)%string)) in
          ret false
      | inr report =>
          (* [lfsResult.Details] is never [nil]: the details are always saved *)
          let lfsResult := adapters.CalculateScore report in
          let* _ := emit (Patch aoi (SolutionInfo.mk (adapters.LFS1Result.Score lfsResult)
                             (adapters.LFS1Result.Status lfsResult)
                             (adapters.LFS1Result.Message lfsResult))) in
          let* _ := emit (SaveDetails aoi (adapters.LFS1Result.Details lfsResult)) in
          ret true
      end
    else ret false
  else ret false.

(** The outcome policy of [run], from the check of [result.TimedOut] to
    the final [aoi.Complete]. *)
Definition finalize (soln : SolutionPoll.t) (rc : RunningConfig.t) (outputDir : string)
    (aoi : SolutionClient.t) (execConfig : ExecuteConfig.t) (result : ExecuteResult.t)
  : M unit :=
  if ExecuteResult.TimedOut result
  then
    let* _ := emit (Patch aoi (SolutionInfo.mk f64_zero StatusTimeLimitExceeded
                       ("评测超时（限制 " ++ fmt_d (ExecuteConfig.Timeout execConfig)
                          ++ " 秒）")%string)) in
    let* _ := emit (SaveDetails aoi (SolutionDetails.mk 0
                       ("评测超时，时间限制 " ++ fmt_d (ExecuteConfig.Timeout execConfig)
                          ++ " 秒")%string [])) in
    emit (Complete aoi)
  else if ExecuteResult.OOM result
  then
    let* _ := emit (Patch aoi (SolutionInfo.mk f64_zero StatusMemoryLimitExceeded
                       ("内存超限（限制 " ++ fmt_d (ExecuteConfig.MemoryLimit execConfig)
                          ++ " MB）")%string)) in
    let* _ := emit (SaveDetails aoi (SolutionDetails.mk 0
                       ("内存超限，内存限制 " ++ fmt_d (ExecuteConfig.MemoryLimit execConfig)
                          ++ " MB")%string [])) in
    emit (Complete aoi)
  else
    let* reportProcessed := process_report soln rc outputDir aoi in
    let* _ :=
      if negb reportProcessed && negb (ExecuteResult.ExitCode result =? 0)
      then emit (Patch aoi (SolutionInfo.mk f64_zero StatusInternalError
                              ("评测异常退出（退出码 " ++ fmt_d (ExecuteResult.ExitCode result)
                                 ++ "），未找到评测报告")%string))
      else ret tt in
    emit (Complete aoi).

Definition run (m : Manager.t) (soln : SolutionPoll.t) : M unit :=
  let* rc := try "failed to parse judge config: "
               (Runtime.json_Unmarshal_RunningConfig R
                  (JudgeConfig.Config (ProblemConfig.Judge (SolutionPoll.ProblemConfig soln)))) in
  let aoi := Solution soln in
  let* _ := emit (Patch aoi (SolutionInfo.mk f64_zero "Running" "评测开始")) in
  let* outputDir := try "failed to create temp output dir: "
                      (Runtime.os_MkdirTemp R
                         ("judge-output-" ++ SolutionPoll.SolutionId soln ++ "-")%string) in
  defer [RemoveAll outputDir]
    (let* execConfig := try "failed to build execute config: "
                          (buildExecuteConfig m soln rc outputDir) in
     let timeout_ns := context_timeout execConfig in
     let* _ := emit (Execute timeout_ns execConfig) in
     let '(lines, outcome) :=
       DockerExecutor.ExecuteWithLogs (Manager.exec m) timeout_ns execConfig in
     let* _ := emits (List.flat_map (fun line => fst (onLine aoi line)) lines) in
     let* result := try "docker execution failed: " outcome in
     finalize soln rc outputDir aoi execConfig result).

(** One turn of the loop of [Start], given what [Poll] returned. *)
Definition Start_iteration (m : Manager.t) (poll : string + SolutionPoll.t) : list Event :=
  match poll with
  | inl _ => []
  | inr soln =>
      if String.eqb (SolutionPoll.SolutionId soln) ""
         || String.eqb (SolutionPoll.TaskId soln) ""
      then []
      else
        match run m soln with
        | (t, inl err) => app t (failSoln soln ("Failed to run solution: " ++ err)%string)
        | (t, inr _) => t
        end
  end.


End Orchestrator.

End manager.

(** ** The queue, as the orchestrator's calls change it *)
Module queue.
Import aoiclient manager.

Definition same_client (a b : SolutionClient.t) : bool :=
  String.eqb (SolutionClient.SolutionID a) (SolutionClient.SolutionID b)
  && String.eqb (SolutionClient.TaskID a) (SolutionClient.TaskID b).

(** Modelled from the spec: the queue-side record of one task, which lives
    in the remote service. Solution Info is replaced by each patch (last
    write wins), Solution Details are replaced wholesale by each
    save-details call, and complete calls are counted. Every call is taken
    to reach the queue. *)
Module Solution.
Record t : Type := mk {
  Info : option SolutionInfo.t;
  Details : option SolutionDetails.t;
  Completes : nat
}.
End Solution.

Definition apply (aoi : SolutionClient.t) (q : Solution.t) (e : Event) : Solution.t :=
  match e with
  | Patch c info =>
      if same_client aoi c
      then Solution.mk (Some info) (Solution.Details q) (Solution.Completes q)
      else q
  | SaveDetails c details =>
      if same_client aoi c
      then Solution.mk (Solution.Info q) (Some details) (Solution.Completes q)
      else q
  | Complete c =>
      if same_client aoi c
      then Solution.mk (Solution.Info q) (Solution.Details q) (S (Solution.Completes q))
      else q
  | Execute _ _ => q
  | RemoveAll _ => q
  end.

Definition apply_trace (aoi : SolutionClient.t) (q : Solution.t) (trace : list Event)
  : Solution.t :=
  List.fold_left (apply aoi) trace q.



Definition is_execute (e : Event) : bool :=
  match e with
  | Execute _ _ => true
  | _ => false
  end.

(** The number of containers a trace starts. *)
Definition dispatches (trace : list Event) : nat :=
  length (List.filter is_execute trace).

End queue.

(** ** Vocabulary for the statements about the orchestrator *)
Module observe.
Import aoiclient judgerproto executor manager.

Definition is_Some_b {A : Type} (o : option A) : bool :=
  match o with
  | Some _ => true
  | None => false
  end.

(** A poll result the loop of [Start] takes up: both ids are present. *)
Definition claimed (soln : SolutionPoll.t) : Prop :=
  SolutionPoll.SolutionId soln <> "" /\ SolutionPoll.TaskId soln <> "".



(** The lines the executor delivered to the callback in the course of a
    trace: those of every container the trace starts. *)
Definition delivered (m : Manager.t) (trace : list Event) : list string :=
  List.flat_map
    (fun e =>
       match e with
       | Execute timeout_ns config =>
           fst (DockerExecutor.ExecuteWithLogs (Manager.exec m) timeout_ns config)
       | _ => []
       end)
    trace.

(** The calls the callback makes for the lines, in order. *)
Definition streamed_of (R : Runtime.t) (StatusInternalError : string)
    (aoi : SolutionClient.t) (lines : list string) : list Event :=
  List.flat_map (fun line => fst (onLine R StatusInternalError aoi line)) lines.

(** The line is not protocol traffic: it does not decode, or its action
    tag is none of the eight known ones, or the body does not unmarshal into
    the schema of its action (Log, Error, Patch and Detail have one). *)
Definition not_protocol_traffic (R : Runtime.t) (line : string) : bool :=
  match Runtime.MessageFromString R line with
  | None => true
  | Some parsed =>
      match Message.Action parsed with
      | ActionOther _ => true
      | ActionLog => negb (is_Some_b (Runtime.json_Unmarshal_LogBody R (Message.Body parsed)))
      | ActionError => negb (is_Some_b (Runtime.json_Unmarshal_ErrorBody R (Message.Body parsed)))
      | ActionPatch => negb (is_Some_b (Runtime.json_Unmarshal_PatchBody R (Message.Body parsed)))
      | ActionDetail => negb (is_Some_b (Runtime.json_Unmarshal_DetailBody R (Message.Body parsed)))
      | ActionGreet | ActionNoop | ActionComplete | ActionQuit => false
      end
  end.

(** An adapter-parseable report artifact is found: the task declares the
    adapter [lfs1], the report file exists in the output directory, and it
    reads and parses as a pytest report. *)
Definition report_found (R : Runtime.t) (soln : SolutionPoll.t) (rc : RunningConfig.t)
    (outputDir : string) : bool :=
  String.eqb (JudgeConfig.Adapter (ProblemConfig.Judge (SolutionPoll.ProblemConfig soln)))
    "lfs1"
  && Runtime.os_Stat R (Runtime.filepath_Join R outputDir (reportFileName rc))
  && match ParsePytestReport R (Runtime.filepath_Join R outputDir (reportFileName rc)) with
     | inr _ => true
     | inl _ => false
     end.

(** The names the orchestrator always injects into the environment. *)
Definition fixed_variables (soln : SolutionPoll.t) : list (string * string) :=
  [("SOLUTION_ID", SolutionPoll.SolutionId soln);
   ("TASK_ID", SolutionPoll.TaskId soln);
   ("USER_ID", SolutionPoll.UserId soln);
   ("CONTEST_ID", SolutionPoll.ContestId soln);
   ("SOLUTION_DATA_URL", SolutionPoll.SolutionDataUrl soln);
   ("SOLUTION_DATA_HASH", SolutionPoll.SolutionDataHash soln);
   ("PROBLEM_DATA_URL", SolutionPoll.ProblemDataUrl soln);
   ("PROBLEM_DATA_HASH", SolutionPoll.ProblemDataHash soln);
   ("PROBLEM_LABEL", ProblemConfig.Label (SolutionPoll.ProblemConfig soln));
   ("JUDGE_ADAPTER",
    JudgeConfig.Adapter (ProblemConfig.Judge (SolutionPoll.ProblemConfig soln)));
   ("OUTPUT_DIR", "/output")].

End observe.

(** ** Concrete collaborators, for running the orchestrator on examples *)
Module scenario.
Import aoiclient judgerproto executor manager.

Definition dq : string := String (ascii_of_nat 34) EmptyString.

Definition quoted (s : string) : string := (dq ++ s ++ dq)%string.

(** The Complete message of the README: an object with the keys [t] and
    [a], the latter bound to the tag [c]. *)
Definition complete_line : string :=
  ("{" ++ quoted "t" ++ ":" ++ quoted "2026-01-20T10:00:00Z" ++ ","
     ++ quoted "a" ++ ":" ++ quoted "c" ++ "}")%string.

(** A line of the grading script that is not protocol traffic. *)
Definition chatter_line : string := "=== Evaluation Complete ===".

(** A decoder that knows the Complete line above and rejects the rest. *)
Definition decode (line : string) : option Message.t :=
  if String.eqb line complete_line
  then Some (Message.mk "2026-01-20T10:00:00Z" ActionComplete "")
  else None.

Definition internal_error : string := "Internal Error".

(** A runtime in which the judge configuration decodes to [config], the
    report file is present iff [present] and decodes to [report], and
    temporary directories are created under [/tmp]. *)
Definition runtime (config : string + RunningConfig.t) (present : bool)
    (report : string + adapters.PytestReport.t) : Runtime.t :=
  Runtime.mk
    (fun _ => config)
    (fun _ => inr "{}")
    (fun _ => report)
    decode
    (fun _ => None) (fun _ => None) (fun _ => None) (fun _ => None)
    (fun pattern => inr ("/tmp/" ++ pattern ++ "1")%string)
    (fun _ => present)
    (fun _ => inr "")
    (fun dir name => (dir ++ "/" ++ name)%string).

(** An executor whose container prints [lines] and ends with [outcome]. *)
Definition docker (lines : list string) (outcome : string + ExecuteResult.t)
  : DockerExecutor.t :=
  DockerExecutor.mk (fun _ _ => (lines, outcome)).

Definition grader (lines : list string) (outcome : string + ExecuteResult.t) : Manager.t :=
  Manager.mk (ManagerConfig.mk "") (docker lines outcome).

(** A judge configuration that declares an image and a command only. *)
Definition plain_config : RunningConfig.t :=
  RunningConfig.mk "lfs1:latest" [] ["/run.sh"] [] 0 0 f64_zero ∅ "" [] None.

(** The same configuration without a command. *)
Definition no_command_config : RunningConfig.t :=
  RunningConfig.mk "lfs1:latest" [] [] [] 0 0 f64_zero ∅ "" [] None.

(** A configuration that declares limits of 5 seconds and 512 MB. *)
Definition limited_config : RunningConfig.t :=
  RunningConfig.mk "lfs1:latest" [] ["/run.sh"] [] 5 512 f64_zero ∅ "" [] None.

(** A configuration whose [env] map binds [JUDGE_VARIABLES] and that
    declares no [variables]. *)
Definition shadowing_config : RunningConfig.t :=
  RunningConfig.mk "lfs1:latest" [] ["/run.sh"] [] 0 0 f64_zero
    (<["JUDGE_VARIABLES" := "spoofed"]> ∅) "" [] None.

Definition task : SolutionPoll.t :=
  SolutionPoll.mk "sol_abc123" "task_xyz789" "user_001" "" "https://s" "sha256:s"
    "https://p" "sha256:p" (ProblemConfig.mk "A" (JudgeConfig.mk "lfs1" "{}")).

Definition no_report : string + adapters.PytestReport.t := inl "unexpected end of JSON input".

(** The report of a run that collected no test. *)
Definition empty_report : adapters.PytestReport.t :=
  adapters.PytestReport.mk f64_zero f64_zero 5 "/home/judge"
    (adapters.PytestReportSummary.mk 0 0 0 0 0 0) [].

(** Seventeen of twenty tests passed, three failed. *)
Definition partial_report : adapters.PytestReport.t :=
  adapters.PytestReport.mk f64_zero f64_zero 1 "/home/judge"
    (adapters.PytestReportSummary.mk 17 3 0 0 20 20) [].

(** A solution record nothing has been reported to yet. *)
Definition fresh_record : queue.Solution.t := queue.Solution.mk None None 0.

(** The container exits with code 0. *)
Definition exit_ok : string + ExecuteResult.t := inr (ExecuteResult.mk 0 false false).

(** The container exits with code 1. *)
Definition exit_failed : ExecuteResult.t := ExecuteResult.mk 1 false false.

(** The deadline fired and the backend also reports an OOM kill. *)
Definition killed_both : ExecuteResult.t := ExecuteResult.mk 137 true true.

End scenario.

(** ** internal/manager, first revision: no output directory, no adapter *)
Module manager_v1.
Import aoiclient judgerproto executor manager.

Section Orchestrator.

Variable R : Runtime.t.

(** [processMessage], [failSoln] and [Start] read the same in both
    revisions; [manager.processMessage] and [manager.failSoln] are used. *)
Variable StatusInternalError : string.

(** The environment of the container: the second revision's without
    [OUTPUT_DIR]. *)
Definition build_env (soln : SolutionPoll.t) (rc : RunningConfig.t) : gmap string string :=
  let env : gmap string string := ∅ in
  let env := map_fold (fun k v (acc : gmap string string) => <[k := v]> acc) env
               (RunningConfig.Env rc) in
  let env := <["SOLUTION_ID" := SolutionPoll.SolutionId soln]> env in
  let env := <["TASK_ID" := SolutionPoll.TaskId soln]> env in
  let env := <["USER_ID" := SolutionPoll.UserId soln]> env in
  let env := <["CONTEST_ID" := SolutionPoll.ContestId soln]> env in
  let env := <["SOLUTION_DATA_URL" := SolutionPoll.SolutionDataUrl soln]> env in
  let env := <["SOLUTION_DATA_HASH" := SolutionPoll.SolutionDataHash soln]> env in
  let env := <["PROBLEM_DATA_URL" := SolutionPoll.ProblemDataUrl soln]> env in
  let env := <["PROBLEM_DATA_HASH" := SolutionPoll.ProblemDataHash soln]> env in
  let env := <["PROBLEM_LABEL" := ProblemConfig.Label (SolutionPoll.ProblemConfig soln)]> env in
  let env := <["JUDGE_ADAPTER" :=
                 JudgeConfig.Adapter (ProblemConfig.Judge (SolutionPoll.ProblemConfig soln))]> env in
  match RunningConfig.Variables rc with
  | Some vars =>
      match Runtime.json_Marshal_Variables R vars with
      | inr varsJSON => <["JUDGE_VARIABLES" := varsJSON]> env
      | inl _ => env
      end
  | None => env
  end.

Definition build_mounts (m : Manager.t) (rc : RunningConfig.t) : list Mount.t :=
  let mounts : list Mount.t := [] in
  let mounts :=
    app mounts
      (List.map (fun mount => Mount.mk (MountConfig.Source mount) (MountConfig.Target mount)
                              (MountConfig.ReadOnly mount))
         (RunningConfig.Mounts rc)) in
  let shared := ManagerConfig.SharedVolumePath (Manager.conf m) in
  if negb (String.eqb shared "")
  then app mounts [Mount.mk shared "/data" true;
                   Mount.mk (shared ++ "/uv-cache")%string "/root/.cache/uv" false]
  else mounts.

Definition buildExecuteConfig (m : Manager.t) (soln : SolutionPoll.t)
    (rc : RunningConfig.t) : string + ExecuteConfig.t :=
  let command := RunningConfig.DockerCmd rc in
  if (length command =? 0)%nat
  then inl "docker_cmd is required in judge config"
  else
    let workDir :=
      if String.eqb (RunningConfig.WorkDir rc) "" then "/home/judge"
      else RunningConfig.WorkDir rc in
    let timeout :=
      if RunningConfig.Timeout rc =? 0 then 600 else RunningConfig.Timeout rc in
    let memoryLimit :=
      if RunningConfig.MemoryLimit rc =? 0 then 2048 else RunningConfig.MemoryLimit rc in
    inr (ExecuteConfig.mk (RunningConfig.Image rc) command timeout memoryLimit
           (RunningConfig.CPULimit rc) (build_env soln rc) workDir
           (build_mounts m rc)).

(** The outcome policy of the first revision: the two checks do not
    return, and a non-zero exit code is only logged. *)
Definition finalize (aoi : SolutionClient.t) (execConfig : ExecuteConfig.t)
    (result : ExecuteResult.t) : M unit :=
  let* _ :=
    if ExecuteResult.TimedOut result
    then
      let* _ := emit (Patch aoi (SolutionInfo.mk f64_zero StatusTimeLimitExceeded
                         ("评测超时（限制 " ++ fmt_d (ExecuteConfig.Timeout execConfig)
                            ++ " 秒）")%string)) in
      emit (SaveDetails aoi (SolutionDetails.mk 0
              ("评测超时，时间限制 " ++ fmt_d (ExecuteConfig.Timeout execConfig)
                 ++ " 秒")%string []))
    else ret tt in
  let* _ :=
    if ExecuteResult.OOM result
    then
      let* _ := emit (Patch aoi (SolutionInfo.mk f64_zero StatusMemoryLimitExceeded
                         ("内存超限（限制 " ++ fmt_d (ExecuteConfig.MemoryLimit execConfig)
                            ++ " MB）")%string)) in
      emit (SaveDetails aoi (SolutionDetails.mk 0
              ("内存超限，内存限制 " ++ fmt_d (ExecuteConfig.MemoryLimit execConfig)
                 ++ " MB")%string []))
    else ret tt in
  emit (Complete aoi).

Definition run (m : Manager.t) (soln : SolutionPoll.t) : M unit :=
  let* rc := try "failed to parse judge config: "
               (Runtime.json_Unmarshal_RunningConfig R
                  (JudgeConfig.Config (ProblemConfig.Judge (SolutionPoll.ProblemConfig soln)))) in
  let aoi := Solution soln in
  let* _ := emit (Patch aoi (SolutionInfo.mk f64_zero "Running" "评测开始")) in
  let* execConfig := try "failed to build execute config: "
                       (buildExecuteConfig m soln rc) in
  let timeout_ns := context_timeout execConfig in
  let* _ := emit (Execute timeout_ns execConfig) in
  let '(lines, outcome) :=
    DockerExecutor.ExecuteWithLogs (Manager.exec m) timeout_ns execConfig in
  let* _ := emits (List.flat_map (fun line => fst (onLine R StatusInternalError aoi line))
                     lines) in
  let* result := try "docker execution failed: " outcome in
  finalize aoi execConfig result.

Definition Start_iteration (m : Manager.t) (poll : string + SolutionPoll.t) : list Event :=
  match poll with
  | inl _ => []
  | inr soln =>
      if String.eqb (SolutionPoll.SolutionId soln) ""
         || String.eqb (SolutionPoll.TaskId soln) ""
      then []
      else
        match run m soln with
        | (t, inl err) => app t (failSoln soln ("Failed to run solution: " ++ err)%string)
        | (t, inr _) => t
        end
  end.

End Orchestrator.

End manager_v1.

(** ** internal/manager: [Init] and [Close] *)
Module lifecycle.
Import executor.

(** [aoiclient.Client] once [Authenticate] has been called on it. *)
Module Client.
Record t : Type := mk {
  Endpoint : string;
  RunnerID : string;
  RunnerKey : string
}.
End Client.

(** The fields [exec] and [aoi] of a [Manager]; [None] is [nil]. *)
Module Handles.
Record t : Type := mk {
  exec : option DockerExecutor.t;
  aoi : option Client.t
}.
End Handles.

(** [NewManager]: both handles are [nil]. *)
Definition NewManager : Handles.t := Handles.mk None None.

(** [Init], given what [executor.NewDockerExecutor] returns and the
    endpoint and credentials of the configuration: the new handles and
    the error, if any. *)
Definition Init (NewDockerExecutor : string + DockerExecutor.t)
    (Endpoint RunnerID RunnerKey : string) (m : Handles.t) : Handles.t * option string :=
  match NewDockerExecutor with
  | inl err => (m, Some err)
  | inr exec =>
      let m := Handles.mk (Some exec) (Handles.aoi m) in
      if negb (String.eqb RunnerID "") || negb (String.eqb RunnerKey "")
      then (Handles.mk (Handles.exec m) (Some (Client.mk Endpoint RunnerID RunnerKey)), None)
      else (m, Some "runner ID and key must be provided")
  end.

(** [Close]: the executor that is closed, if there is one. *)
Definition Close (m : Handles.t) : option DockerExecutor.t := Handles.exec m.

End lifecycle.

(** ** The container-side use of the adapter *)
Module printing.
Import aoiclient manager.

(** What [ProcessAndPrint] hands to [judgerproto] for printing, in order. *)
Inductive Printed : Type :=
| PrintError (err : string)
| PrintPatch (body : SolutionInfo.t)
| PrintDetail (body : SolutionDetails.t)
| PrintComplete.

(** [ProcessAndPrint] of the second revision of the adapter: the printed
    messages and the returned error. *)
Definition ProcessAndPrint (R : Runtime.t) (reportPath : string)
  : list Printed * option string :=
  match ParsePytestReport R reportPath with
  | inl err => ([PrintError err], Some err)
  | inr report =>
      let result := adapters.CalculateScore report in
      ([PrintPatch (SolutionInfo.mk (adapters.LFS1Result.Score result)
                      (adapters.LFS1Result.Status result)
                      (adapters.LFS1Result.Message result));
        PrintDetail (adapters.LFS1Result.Details result);
        PrintComplete],
       None)
  end.

End printing.

(** ** Further vocabulary *)
Module observe2.
Import aoiclient judgerproto executor manager.

(** [sep] occurs in [s]. *)
Fixpoint contains (sep s : string) : bool :=
  match s with
  | EmptyString => false
  | String _ s' => String.prefix sep s || contains sep s'
  end.

(** The variable names the orchestrator may write itself. *)
Definition reserved_names : list string :=
  ["SOLUTION_ID"; "TASK_ID"; "USER_ID"; "CONTEST_ID"; "SOLUTION_DATA_URL";
   "SOLUTION_DATA_HASH"; "PROBLEM_DATA_URL"; "PROBLEM_DATA_HASH"; "PROBLEM_LABEL";
   "JUDGE_ADAPTER"; "JUDGE_VARIABLES"; "OUTPUT_DIR"].

(** The event is a call on the queue for the task of [aoi]. *)
Definition queue_call_of (aoi : SolutionClient.t) (e : Event) : Prop :=
  match e with
  | Patch c _ => c = aoi
  | SaveDetails c _ => c = aoi
  | Complete c => c = aoi
  | Execute _ _ => False
  | RemoveAll _ => False
  end.

Definition is_remove (e : Event) : bool :=
  match e with
  | RemoveAll _ => true
  | _ => false
  end.


(** The three outcomes of a test case that count as a pass. *)
Definition passing_outcome (outcome : string) : bool :=
  String.eqb outcome "passed" || String.eqb outcome "xfailed"
  || String.eqb outcome "xpassed".

(** The decoder of the runtime reads the line [line] as the printed
    message [p]. *)
Definition reads_as (R : Runtime.t) (line : string) (p : printing.Printed) : Prop :=
  exists parsed : Message.t,
    Runtime.MessageFromString R line = Some parsed
    /\ match p with
       | printing.PrintError err =>
           Message.Action parsed = ActionError
           /\ Runtime.json_Unmarshal_ErrorBody R (Message.Body parsed) = Some err
       | printing.PrintPatch body =>
           Message.Action parsed = ActionPatch
           /\ Runtime.json_Unmarshal_PatchBody R (Message.Body parsed) = Some body
       | printing.PrintDetail body =>
           Message.Action parsed = ActionDetail
           /\ Runtime.json_Unmarshal_DetailBody R (Message.Body parsed) = Some body
       | printing.PrintComplete => Message.Action parsed = ActionComplete
       end.

End observe2.

(** ** Further concrete collaborators *)
Module scenario2.
Import aoiclient judgerproto executor manager.

(** A Patch line and the body it carries: score 85.5, status Accepted. *)
Definition patch_line : string := "patch 85.5 Accepted".

Definition patch_body : SolutionInfo.t :=
  SolutionInfo.mk (binary_normalize 53 1024 171 (-1) false) "Accepted" "17/20".

(** A decoder that knows the Complete line of [scenario] and the Patch
    line above. *)
Definition decode (line : string) : option Message.t :=
  if String.eqb line scenario.complete_line
  then Some (Message.mk "2026-01-20T10:00:00Z" ActionComplete "")
  else if String.eqb line patch_line
  then Some (Message.mk "2026-01-20T10:00:00Z" ActionPatch "body")
  else None.

(** As [scenario.runtime], with the decoder above and a decoder for the
    body of its Patch message. *)
Definition runtime (config : string + RunningConfig.t) (present : bool)
    (report : string + adapters.PytestReport.t) : Runtime.t :=
  Runtime.mk
    (fun _ => config)
    (fun _ => inr "{}")
    (fun _ => report)
    decode
    (fun _ => None) (fun _ => None)
    (fun body => if String.eqb body "body" then Some patch_body else None)
    (fun _ => None)
    (fun pattern => inr ("/tmp/" ++ pattern ++ "1")%string)
    (fun _ => present)
    (fun _ => inr "")
    (fun dir name => (dir ++ "/" ++ name)%string).

(** A task that declares no adapter. *)
Definition plain_task : SolutionPoll.t :=
  SolutionPoll.mk "sol_abc123" "task_xyz789" "user_001" "" "https://s" "sha256:s"
    "https://p" "sha256:p" (ProblemConfig.mk "A" (JudgeConfig.mk "" "{}")).

(** A configuration with a custom variable and two mounts. *)
Definition rich_config : RunningConfig.t :=
  RunningConfig.mk "lfs1:latest" [] ["/run.sh"] [] 300 512 f64_zero
    (<["LANG" := "en_US.UTF-8"]> ∅) "" 
    [MountConfig.mk "/srv/tests" "/lfs-tests" true;
     MountConfig.mk "/srv/scratch" "/scratch" false]
    None.

Definition shared_grader (lines : list string) (outcome : string + ExecuteResult.t)
  : Manager.t :=
  Manager.mk (ManagerConfig.mk "/shared") (scenario.docker lines outcome).

(** A failed test case whose trace is 300 bytes long and that has no crash
    message. *)
Definition long_trace : string :=
  string_of_list_ascii (List.repeat "x"%char 300).

Definition failed_case : adapters.PytestTestCase.t :=
  adapters.PytestTestCase.mk "tests/test_data.py::test_get_batch" 10 "failed" []
    None
    (Some (adapters.PytestTestPhase.mk f64_zero "failed" None long_trace))
    None.

(** A printer that writes each kind of message as a fixed line. *)
Definition encode (p : printing.Printed) : string :=
  match p with
  | printing.PrintError _ => "error"
  | printing.PrintPatch _ => "patch"
  | printing.PrintDetail _ => "detail"
  | printing.PrintComplete => "complete"
  end.

(** A runtime whose report file holds [scenario.partial_report] and whose
    decoder reads the lines of [encode] as the messages [ProcessAndPrint]
    prints for that report. *)
Definition printer_runtime : Runtime.t :=
  let result := adapters.CalculateScore scenario.partial_report in
  Runtime.mk
    (fun _ => inr scenario.plain_config)
    (fun _ => inr "{}")
    (fun _ => inr scenario.partial_report)
    (fun line =>
       if String.eqb line "patch" then Some (Message.mk "" ActionPatch "")
       else if String.eqb line "detail" then Some (Message.mk "" ActionDetail "")
       else if String.eqb line "complete" then Some (Message.mk "" ActionComplete "")
       else None)
    (fun _ => None) (fun _ => None)
    (fun _ => Some (SolutionInfo.mk (adapters.LFS1Result.Score result)
                      (adapters.LFS1Result.Status result)
                      (adapters.LFS1Result.Message result)))
    (fun _ => Some (adapters.LFS1Result.Details result))
    (fun pattern => inr ("/tmp/" ++ pattern ++ "1")%string)
    (fun _ => true)
    (fun _ => inr "{}")
    (fun dir name => (dir ++ "/" ++ name)%string).

End scenario2.

(** * Properties *)

Import aoiclient judgerproto executor manager.

(** ** Go integers *)

Lemma wrap64_in_range (z : Z) : int_range z -> wrap64 z = z.
Proof.
  unfold int_range, wrap64. intros Hz.
  rewrite Z.mod_small; lia.
Qed.

Lemma int_add_0_r (z : Z) : int_range z -> int_add z 0 = z.
Proof.
  intros Hz. unfold int_add. rewrite Z.add_0_r. now apply wrap64_in_range.
Qed.

Lemma int_add_exact (a b : Z) : int_range (a + b) -> int_add a b = a + b.
Proof. apply wrap64_in_range. Qed.

(** The Go sum of the passed and expected-failure counters is their sum
    whenever that sum is a Go [int]. *)
Lemma passed_plus_exact (s : adapters.PytestReportSummary.t) :
  int_range (adapters.PytestReportSummary.Passed s + adapters.PytestReportSummary.XFailed s) ->
  adapters.passed_plus s
  = adapters.PytestReportSummary.Passed s + adapters.PytestReportSummary.XFailed s.
Proof. apply int_add_exact. Qed.

(** Seventeen passes out of twenty score exactly 85. *)
Example score_17_of_20 : adapters.score_of 17 20 = f64_of_int 85.
Proof. vm_compute. reflexivity. Qed.

(** One pass out of three: the quotient is rounded before it is scaled,
    which gives 33.33333333333333, one unit in the last place below the
    binary64 value of 100/3. *)
Example score_1_of_3 :
  adapters.score_of 1 3 = S754_finite false 4691249611844266 (-47)
  /\ f64_div (f64_of_int 100) (f64_of_int 3) = S754_finite false 4691249611844267 (-47).
Proof. split; vm_compute; reflexivity. Qed.

(** ** The report adapter *)

Section Adapter.

Import adapters.

Lemma verdict_accepted (failed passed total : Z) :
  failed = 0 -> passed = total ->
  verdict failed passed total
  = (StatusAccepted,
     ("全部通过 " ++ fmt_d passed ++ "/" ++ fmt_d total ++ " 测试点")%string).
Proof.
  intros -> ->. unfold verdict. now rewrite !Z.eqb_refl.
Qed.

Lemma verdict_partial (failed passed total : Z) :
  ~ (failed = 0 /\ passed = total) -> 0 < passed ->
  verdict failed passed total
  = (StatusWrongAnswer,
     ("通过 " ++ fmt_d passed ++ "/" ++ fmt_d total ++ " 测试点，失败 "
        ++ fmt_d failed ++ " 个")%string).
Proof.
  intros Hna Hpos. unfold verdict.
  destruct (failed =? 0) eqn:Hf, (passed =? total) eqn:Hp; simpl;
    try (apply Z.eqb_eq in Hf; apply Z.eqb_eq in Hp; tauto);
    (destruct (0 <? passed) eqn:H0; [reflexivity | apply Z.ltb_ge in H0; lia]).
Qed.

Lemma verdict_zero (failed passed total : Z) :
  ~ (failed = 0 /\ passed = total) -> passed <= 0 ->
  verdict failed passed total
  = (StatusWrongAnswer, ("未通过任何测试点 (0/" ++ fmt_d total ++ ")")%string).
Proof.
  intros Hna Hle. unfold verdict.
  destruct (failed =? 0) eqn:Hf, (passed =? total) eqn:Hp; simpl;
    try (apply Z.eqb_eq in Hf; apply Z.eqb_eq in Hp; tauto);
    (destruct (0 <? passed) eqn:H0; [apply Z.ltb_lt in H0; lia | reflexivity]).
Qed.

Lemma Accepted_neq_WrongAnswer : StatusAccepted <> StatusWrongAnswer.
Proof. discriminate. Qed.

Lemma CalculateScore_status (report : PytestReport.t) :
  LFS1Result.Status (CalculateScore report)
  = fst (verdict (PytestReportSummary.Failed (PytestReport.Summary report))
           (passed_plus (PytestReport.Summary report))
           (PytestReportSummary.Total (PytestReport.Summary report))).
Proof.
  unfold CalculateScore. now destruct (verdict _ _ _).
Qed.

Lemma CalculateScore_message (report : PytestReport.t) :
  LFS1Result.Message (CalculateScore report)
  = ((snd (verdict (PytestReportSummary.Failed (PytestReport.Summary report))
             (passed_plus (PytestReport.Summary report))
             (PytestReportSummary.Total (PytestReport.Summary report)))
        ++ skipped_suffix (PytestReportSummary.Skipped (PytestReport.Summary report)))
       ++ xfailed_suffix (PytestReportSummary.XFailed (PytestReport.Summary report)))%string.
Proof.
  unfold CalculateScore. now destruct (verdict _ _ _).
Qed.

Lemma CalculateScore_score (report : PytestReport.t) :
  LFS1Result.Score (CalculateScore report)
  = score_of (passed_plus (PytestReport.Summary report))
      (PytestReportSummary.Total (PytestReport.Summary report)).
Proof.
  unfold CalculateScore. now destruct (verdict _ _ _).
Qed.

Lemma append_cons (c : ascii) (a b : string) :
  (String c a ++ b)%string = String c (a ++ b).
Proof. reflexivity. Qed.

Lemma append_empty_l (a : string) : ("" ++ a)%string = a.
Proof. reflexivity. Qed.

Lemma append_empty_r (a : string) : (a ++ "")%string = a.
Proof.
  induction a as [|x a IH]; [reflexivity | now rewrite append_cons, IH].
Qed.

Lemma append_assoc (a b c : string) : ((a ++ b) ++ c = a ++ (b ++ c))%string.
Proof.
  induction a as [|x a IH]; [reflexivity | now rewrite !append_cons, IH].
Qed.

(** The first byte of the message tells the branches apart: the UTF-8
    encodings of the three leading characters start with the bytes 229
    (all passed), 233 (some passed) and 230 (none passed). *)
Lemma message_head_zero (report : PytestReport.t) :
  zero_passed_branch report ->
  head_byte (LFS1Result.Message (CalculateScore report)) = Some (ascii_of_nat 230).
Proof.
  intros [Hna Hle]. rewrite CalculateScore_message.
  rewrite (verdict_zero _ _ _ Hna Hle). reflexivity.
Qed.

Lemma message_head_other (report : PytestReport.t) :
  ~ zero_passed_branch report ->
  head_byte (LFS1Result.Message (CalculateScore report)) <> Some (ascii_of_nat 230).
Proof.
  intros Hnz. rewrite CalculateScore_message.
  set (s := PytestReport.Summary report) in *.
  destruct (Z.eq_dec (PytestReportSummary.Failed s) 0) as [Hf | Hf];
    [destruct (Z.eq_dec (passed_plus s) (PytestReportSummary.Total s)) as [Hp | Hp] |].
  - rewrite (verdict_accepted _ _ _ Hf Hp). discriminate.
  - destruct (Z_le_gt_dec (passed_plus s) 0) as [Hle | Hgt].
    + exfalso. apply Hnz. split; [tauto | exact Hle].
    + rewrite verdict_partial by (tauto || lia). discriminate.
  - destruct (Z_le_gt_dec (passed_plus s) 0) as [Hle | Hgt].
    + exfalso. apply Hnz. split; [tauto | exact Hle].
    + rewrite verdict_partial by (tauto || lia). discriminate.
Qed.

End Adapter.

Section AdapterClaims.

Import adapters.

(** C3 (as amended). For every pytest report, with [p] the Go sum
    [summary.Passed + summary.XFailed]: the score is [0] when [total = 0]
    and is [float64(p) / float64(total) * 100] in binary64 when [total > 0];
    the status is Accepted iff [failed = 0] and [p = total]; the status is
    Wrong Answer when [0 < p < total]; and when [p = 0], unless
    [failed = 0] and [total = 0], the status is Wrong Answer and the message
    is the zero-passed message, which no report outside that branch
    produces. *)
Theorem C3_CalculateScore_spec (report : PytestReport.t) :
  let s := PytestReport.Summary report in
  let p := passed_plus s in
  let total := PytestReportSummary.Total s in
  let failed := PytestReportSummary.Failed s in
  let r := CalculateScore report in
  (total = 0 -> LFS1Result.Score r = f64_zero)
  /\ (0 < total ->
      LFS1Result.Score r
      = f64_mul (f64_div (f64_of_int p) (f64_of_int total)) (f64_of_int 100))
  /\ (LFS1Result.Status r = StatusAccepted <-> failed = 0 /\ p = total)
  /\ (0 < p < total -> LFS1Result.Status r = StatusWrongAnswer)
  /\ (p = 0 -> ~ (failed = 0 /\ total = 0) ->
      LFS1Result.Status r = StatusWrongAnswer
      /\ LFS1Result.Message r = zero_passed_message report
      /\ forall other : PytestReport.t,
           ~ zero_passed_branch other ->
           LFS1Result.Message (CalculateScore other) <> LFS1Result.Message r).
Proof.
  cbv zeta.
  set (s := PytestReport.Summary report).
  rewrite CalculateScore_score, CalculateScore_status, CalculateScore_message.
  fold s. split; [| split; [| split; [| split]]].
  - intros Ht. unfold score_of. now rewrite Ht.
  - intros Ht. unfold score_of.
    destruct (0 <? PytestReportSummary.Total s) eqn:H0;
      [reflexivity | apply Z.ltb_ge in H0; lia].
  - split.
    + intros Hst.
      destruct (Z.eq_dec (PytestReportSummary.Failed s) 0) as [Hf | Hf];
        [destruct (Z.eq_dec (passed_plus s) (PytestReportSummary.Total s)) as [Hp | Hp] |];
        try tauto; exfalso.
      * destruct (Z_le_gt_dec (passed_plus s) 0) as [Hle | Hgt].
        -- rewrite verdict_zero in Hst by (tauto || lia). discriminate.
        -- rewrite verdict_partial in Hst by (tauto || lia). discriminate.
      * destruct (Z_le_gt_dec (passed_plus s) 0) as [Hle | Hgt].
        -- rewrite verdict_zero in Hst by (tauto || lia). discriminate.
        -- rewrite verdict_partial in Hst by (tauto || lia). discriminate.
    + intros [Hf Hp]. now rewrite verdict_accepted.
  - intros [Hpos Hlt]. rewrite verdict_partial by lia. reflexivity.
  - intros Hp Hna.
    assert (Hbranch : ~ (PytestReportSummary.Failed s = 0
                         /\ passed_plus s = PytestReportSummary.Total s)) by lia.
    rewrite verdict_zero by (assumption || lia).
    split; [reflexivity | split; [reflexivity |]].
    intros other Hother Heq.
    apply (message_head_other other Hother).
    rewrite Heq. reflexivity.
Qed.

(** C3, the claim as written fails: the report of a run that collected no
    test has [passed + xfailed = 0], and its status is Accepted with the
    all-passed message, not Wrong Answer with the zero-passed message. *)
Lemma C3_counterexample_empty_report :
  passed_plus (PytestReport.Summary scenario.empty_report) = 0
  /\ LFS1Result.Status (CalculateScore scenario.empty_report) = "Accepted"
  /\ LFS1Result.Status (CalculateScore scenario.empty_report) <> StatusWrongAnswer
  /\ LFS1Result.Message (CalculateScore scenario.empty_report) = "全部通过 0/0 测试点"
  /\ LFS1Result.Message (CalculateScore scenario.empty_report)
     <> zero_passed_message scenario.empty_report.
Proof.
  repeat split; try reflexivity; vm_compute; discriminate.
Qed.

(** C8. For every pytest report whose summary has zero expected failures
    (and whose passed counter is a Go [int]), the first revision of
    [CalculateScore], applied to the same report decoded without the
    [xfailed] field, and the second revision return the same score, the
    same status and the same message. *)
Theorem C8_CalculateScore_revisions_agree
    (fmt_2f : float64 -> string) (report : PytestReport.t) :
  PytestReportSummary.XFailed (PytestReport.Summary report) = 0 ->
  int_range (PytestReportSummary.Passed (PytestReport.Summary report)) ->
  let r1 := adapters_v1.CalculateScore fmt_2f (to_v1 report) in
  let r2 := CalculateScore report in
  adapters_v1.LFS1Result.Score r1 = LFS1Result.Score r2
  /\ adapters_v1.LFS1Result.Status r1 = LFS1Result.Status r2
  /\ adapters_v1.LFS1Result.Message r1 = LFS1Result.Message r2.
Proof.
  intros Hx Hrange. cbv zeta.
  rewrite CalculateScore_score, CalculateScore_status, CalculateScore_message.
  unfold adapters_v1.CalculateScore, to_v1, passed_plus. cbn.
  rewrite Hx, (int_add_0_r _ Hrange).
  change (adapters_v1.verdict ?f ?p ?t) with (verdict f p t).
  destruct (verdict _ _ _) as [status message]. cbn.
  unfold xfailed_suffix. cbn. rewrite append_empty_r.
  repeat split.
Qed.

Lemma C8_witness_partial_report :
  let r1 := adapters_v1.CalculateScore (fun _ => "0.00") (to_v1 scenario.partial_report) in
  let r2 := CalculateScore scenario.partial_report in
  adapters_v1.LFS1Result.Score r1 = LFS1Result.Score r2
  /\ adapters_v1.LFS1Result.Status r1 = LFS1Result.Status r2
  /\ adapters_v1.LFS1Result.Message r1 = LFS1Result.Message r2.
Proof.
  apply (C8_CalculateScore_revisions_agree (fun _ => "0.00") scenario.partial_report).
  - reflexivity.
  - unfold int_range. simpl. lia.
Defined.

End AdapterClaims.

(** ** The orchestrator *)

Section OrchestratorFacts.

Import queue observe.

Variable R : Runtime.t.
Variable StatusInternalError : string.

Local Open Scope list_scope.

Lemma same_client_refl (aoi : SolutionClient.t) : same_client aoi aoi = true.
Proof.
  unfold same_client. now rewrite !String.eqb_refl.
Qed.




Lemma delivered_app (m : Manager.t) (t1 t2 : list Event) :
  delivered m (t1 ++ t2) = delivered m t1 ++ delivered m t2.
Proof.
  unfold delivered. apply List.flat_map_app.
Qed.


Lemma apply_trace_app (aoi : SolutionClient.t) (q : Solution.t) (t1 t2 : list Event) :
  apply_trace aoi q (t1 ++ t2) = apply_trace aoi (apply_trace aoi q t1) t2.
Proof.
  unfold apply_trace. apply List.fold_left_app.
Qed.

(** *** One line *)





(** *** The streamed output *)

Lemma streamed_cons (aoi : SolutionClient.t) (line : string) (lines : list string) :
  streamed_of R StatusInternalError aoi (line :: lines)
  = processMessage R StatusInternalError line aoi
      ++ streamed_of R StatusInternalError aoi lines.
Proof. reflexivity. Qed.




(** *** The adapter step and the outcome policy *)

Lemma process_report_value (soln : SolutionPoll.t) (rc : RunningConfig.t)
    (outputDir : string) (aoi : SolutionClient.t) :
  snd (process_report R StatusInternalError soln rc outputDir aoi)
  = inr (report_found R soln rc outputDir).
Proof.
  unfold process_report, report_found.
  destruct (String.eqb _ "lfs1"); [| reflexivity].
  destruct (Runtime.os_Stat R _); [| reflexivity].
  now destruct (ParsePytestReport R _).
Qed.



(** The normal-exit branch of the outcome policy, spelled out. *)
Lemma finalize_normal (soln : SolutionPoll.t) (rc : RunningConfig.t) (outputDir : string)
    (aoi : SolutionClient.t) (execConfig : ExecuteConfig.t) (result : ExecuteResult.t) :
  ExecuteResult.TimedOut result = false ->
  ExecuteResult.OOM result = false ->
  finalize R StatusInternalError soln rc outputDir aoi execConfig result
  = (fst (process_report R StatusInternalError soln rc outputDir aoi)
       ++ (if negb (report_found R soln rc outputDir)
              && negb (ExecuteResult.ExitCode result =? 0)
           then [Patch aoi (SolutionInfo.mk f64_zero StatusInternalError
                              ("评测异常退出（退出码 "
                                 ++ fmt_d (ExecuteResult.ExitCode result)
                                 ++ "），未找到评测报告")%string)]
           else [])
       ++ [Complete aoi],
     inr tt).
Proof.
  intros Ht Ho. unfold finalize. rewrite Ht, Ho.
  pose proof (process_report_value soln rc outputDir aoi) as Hv.
  destruct (process_report R StatusInternalError soln rc outputDir aoi) as [t r].
  simpl in Hv. subst r. simpl.
  now destruct (negb (report_found R soln rc outputDir)
                && negb (ExecuteResult.ExitCode result =? 0)).
Qed.

Lemma finalize_value (soln : SolutionPoll.t) (rc : RunningConfig.t) (outputDir : string)
    (aoi : SolutionClient.t) (execConfig : ExecuteConfig.t) (result : ExecuteResult.t) :
  snd (finalize R StatusInternalError soln rc outputDir aoi execConfig result) = inr tt.
Proof.
  destruct (ExecuteResult.TimedOut result) eqn:Ht;
    [| destruct (ExecuteResult.OOM result) eqn:Ho].
  - unfold finalize. now rewrite Ht.
  - unfold finalize. now rewrite Ht, Ho.
  - now rewrite finalize_normal.
Qed.



(** *** The shape of a run *)

Lemma run_shape (m : Manager.t) (soln : SolutionPoll.t) :
  run R StatusInternalError m soln
  = let aoi := Solution soln in
    let running := Patch aoi (SolutionInfo.mk f64_zero "Running" "评测开始") in
    match Runtime.json_Unmarshal_RunningConfig R
            (JudgeConfig.Config (ProblemConfig.Judge (SolutionPoll.ProblemConfig soln))) with
    | inl e => ([], inl ("failed to parse judge config: " ++ e)%string)
    | inr rc =>
        match Runtime.os_MkdirTemp R
                ("judge-output-" ++ SolutionPoll.SolutionId soln ++ "-")%string with
        | inl e => ([running], inl ("failed to create temp output dir: " ++ e)%string)
        | inr outputDir =>
            match buildExecuteConfig R m soln rc outputDir with
            | inl e =>
                ([running; RemoveAll outputDir],
                 inl ("failed to build execute config: " ++ e)%string)
            | inr config =>
                let response :=
                  DockerExecutor.ExecuteWithLogs (Manager.exec m)
                    (context_timeout config) config in
                let started :=
                  running :: Execute (context_timeout config) config
                    :: streamed_of R StatusInternalError aoi (fst response) in
                match snd response with
                | inl e =>
                    (started ++ [RemoveAll outputDir],
                     inl ("docker execution failed: " ++ e)%string)
                | inr result =>
                    (started
                       ++ fst (finalize R StatusInternalError soln rc outputDir aoi
                                 config result)
                       ++ [RemoveAll outputDir],
                     inr tt)
                end
            end
        end
    end.
Proof.
  unfold run. cbv zeta.
  destruct (Runtime.json_Unmarshal_RunningConfig R _) as [e | rc]; [reflexivity |].
  simpl.
  destruct (Runtime.os_MkdirTemp R _) as [e | outputDir]; [reflexivity |].
  simpl.
  destruct (buildExecuteConfig R m soln rc outputDir) as [e | config]; [reflexivity |].
  simpl.
  destruct (DockerExecutor.ExecuteWithLogs _ _ _) as [lines [e | result]]; simpl.
  - unfold streamed_of. now rewrite List.app_nil_r.
  - pose proof (finalize_value soln rc outputDir (Solution soln) config result) as Hv.
    destruct (finalize R StatusInternalError soln rc outputDir (Solution soln) config result)
      as [t r].
    simpl in Hv. subst r. simpl. unfold streamed_of.
    now rewrite <- List.app_assoc.
Qed.

Lemma Start_iteration_claimed (m : Manager.t) (soln : SolutionPoll.t) :
  claimed soln ->
  Start_iteration R StatusInternalError m (inr soln)
  = match run R StatusInternalError m soln with
    | (t, inl err) => t ++ failSoln soln ("Failed to run solution: " ++ err)%string
    | (t, inr _) => t
    end.
Proof.
  intros [Hs Ht]. unfold Start_iteration.
  apply String.eqb_neq in Hs. apply String.eqb_neq in Ht.
  now rewrite Hs, Ht.
Qed.

End OrchestratorFacts.

Section OrchestratorClaims.

Import queue observe.

Local Open Scope list_scope.

Variable R : Runtime.t.
Variable StatusInternalError : string.






Lemma apply_trace_patch_last (aoi : SolutionClient.t) (q : Solution.t)
    (info : SolutionInfo.t) (rest : list Event) :
  List.forallb (fun e => match e with Patch _ _ => false | _ => true end) rest = true ->
  Solution.Info (apply_trace aoi q (Patch aoi info :: rest)) = Some info.
Proof.
  unfold apply_trace. simpl. rewrite same_client_refl.
  set (q' := Solution.mk (Some info) (Solution.Details q) (Solution.Completes q)).
  assert (Hq : Solution.Info q' = Some info) by reflexivity.
  clearbody q'. revert q' Hq.
  induction rest as [| e rest IH]; intros q' Hq Hrest; [exact Hq |].
  simpl in Hrest. apply andb_prop in Hrest as [He Hrest].
  simpl. apply IH; [| exact Hrest].
  destruct e; simpl; try discriminate; try exact Hq;
    now destruct (same_client aoi aoi0).
Qed.

(** The premises under which a run reaches the outcome policy: the judge
    configuration parses, the output directory is created, the execution
    specification is built, and the executor returns a result after having
    delivered [lines]. *)
Section Dispatched.

Variable m : Manager.t.
Variable soln : SolutionPoll.t.
Variable rc : RunningConfig.t.
Variable outputDir : string.
Variable config : ExecuteConfig.t.
Variable lines : list string.
Variable result : ExecuteResult.t.

Hypothesis Hclaimed : claimed soln.
Hypothesis Hparse :
  Runtime.json_Unmarshal_RunningConfig R
    (JudgeConfig.Config (ProblemConfig.Judge (SolutionPoll.ProblemConfig soln))) = inr rc.
Hypothesis Hmkdir :
  Runtime.os_MkdirTemp R ("judge-output-" ++ SolutionPoll.SolutionId soln ++ "-")%string
  = inr outputDir.
Hypothesis Hbuild : buildExecuteConfig R m soln rc outputDir = inr config.
Hypothesis Hexec :
  DockerExecutor.ExecuteWithLogs (Manager.exec m) (context_timeout config) config
  = (lines, inr result).

Lemma dispatched_trace :
  Start_iteration R StatusInternalError m (inr soln)
  = (Patch (Solution soln) (SolutionInfo.mk f64_zero "Running" "评测开始")
       :: Execute (context_timeout config) config
       :: streamed_of R StatusInternalError (Solution soln) lines)
      ++ fst (finalize R StatusInternalError soln rc outputDir (Solution soln) config result)
      ++ [RemoveAll outputDir].
Proof.
  rewrite (Start_iteration_claimed R StatusInternalError m soln Hclaimed).
  rewrite run_shape. cbv zeta. now rewrite Hparse, Hmkdir, Hbuild, Hexec.
Qed.

(** C2. For every execution outcome with [TimedOut] or [OOM] set, the
    orchestrator ends the task with a patch of score 0 and the dedicated
    status, Time Limit Exceeded for a timeout and Memory Limit Exceeded for
    OOM, then saves details and completes; whatever the sandbox patched
    while streaming, the solution record ends with that score and status.
    The timeout is checked first: when both flags are set the status is
    Time Limit Exceeded. *)
Theorem C2_timeout_oom_override (q : Solution.t) :
  ExecuteResult.TimedOut result = true \/ ExecuteResult.OOM result = true ->
  let trace := Start_iteration R StatusInternalError m (inr soln) in
  let status :=
    if ExecuteResult.TimedOut result
    then StatusTimeLimitExceeded else StatusMemoryLimitExceeded in
  exists (before : list Event) (message summary : string),
    trace = before
              ++ [Patch (Solution soln) (SolutionInfo.mk f64_zero status message);
                  SaveDetails (Solution soln) (SolutionDetails.mk 0 summary []);
                  Complete (Solution soln);
                  RemoveAll outputDir]
    /\ Solution.Info (apply_trace (Solution soln) q trace)
       = Some (SolutionInfo.mk f64_zero status message).
Proof.
  intros Hflag. cbv zeta. rewrite dispatched_trace.
  set (started := _ :: _ :: streamed_of _ _ _ _).
  assert (Hfin : exists message summary,
             fst (finalize R StatusInternalError soln rc outputDir (Solution soln)
                    config result)
             = [Patch (Solution soln)
                  (SolutionInfo.mk f64_zero
                     (if ExecuteResult.TimedOut result
                      then StatusTimeLimitExceeded else StatusMemoryLimitExceeded)
                     message);
                SaveDetails (Solution soln) (SolutionDetails.mk 0 summary []);
                Complete (Solution soln)]).
  { unfold finalize. destruct (ExecuteResult.TimedOut result) eqn:Ht.
    - eexists _, _. reflexivity.
    - destruct Hflag as [Hf | Ho]; [discriminate |]. rewrite Ho.
      eexists _, _. reflexivity. }
  destruct Hfin as (message & summary & ->).
  exists started, message, summary. split; [reflexivity |].
  rewrite apply_trace_app. apply apply_trace_patch_last. reflexivity.
Qed.

(** C4. For every run that is neither timed out nor OOM, if the sandbox
    exited with a non-zero code and no adapter-parseable report artifact was
    found, the orchestrator patches the internal-error status with score 0
    and then issues the terminal complete call; this holds whatever the
    sandbox sent while streaming, in particular when it sent no Patch and no
    Complete. *)
Theorem C4_internal_error_on_failed_exit (q : Solution.t) :
  ExecuteResult.TimedOut result = false ->
  ExecuteResult.OOM result = false ->
  ExecuteResult.ExitCode result <> 0 ->
  report_found R soln rc outputDir = false ->
  let trace := Start_iteration R StatusInternalError m (inr soln) in
  let info :=
    SolutionInfo.mk f64_zero StatusInternalError
      ("评测异常退出（退出码 " ++ fmt_d (ExecuteResult.ExitCode result)
         ++ "），未找到评测报告")%string in
  exists before : list Event,
    trace = before ++ [Patch (Solution soln) info; Complete (Solution soln);
                       RemoveAll outputDir]
    /\ Solution.Info (apply_trace (Solution soln) q trace) = Some info.
Proof.
  intros Ht Ho Hcode Hreport. cbv zeta. rewrite dispatched_trace.
  rewrite (finalize_normal R StatusInternalError) by assumption.
  rewrite Hreport. apply Z.eqb_neq in Hcode. rewrite Hcode. simpl fst.
  set (started := _ :: _ :: streamed_of _ _ _ _).
  set (adapter := fst (process_report _ _ _ _ _ _)).
  assert (Heq : started
                  ++ (adapter
                        ++ [Patch (Solution soln)
                              (SolutionInfo.mk f64_zero StatusInternalError
                                 ("评测异常退出（退出码 "
                                    ++ fmt_d (ExecuteResult.ExitCode result)
                                    ++ "），未找到评测报告")%string);
                            Complete (Solution soln)])
                  ++ [RemoveAll outputDir]
               = (started ++ adapter)
                   ++ [Patch (Solution soln)
                         (SolutionInfo.mk f64_zero StatusInternalError
                            ("评测异常退出（退出码 "
                               ++ fmt_d (ExecuteResult.ExitCode result)
                               ++ "），未找到评测报告")%string);
                       Complete (Solution soln); RemoveAll outputDir]).
  { rewrite <- (List.app_assoc started). f_equal.
    now rewrite <- (List.app_assoc adapter). }
  simpl negb. simpl andb. cbv iota. simpl app at 2. rewrite Heq.
  exists (started ++ adapter). split; [reflexivity |].
  rewrite apply_trace_app. apply apply_trace_patch_last. reflexivity.
Qed.

End Dispatched.

(** C5. For every output line that is not protocol traffic (it does not
    decode, or its action tag is unknown, or its body does not unmarshal
    into the schema of its action), [processMessage] makes no queue call and
    the callback returns no error: the solution record is unchanged, and the
    calls made for the whole output are those made without the line. *)
Theorem C5_non_protocol_lines_ignored (aoi : SolutionClient.t) (line : string) :
  not_protocol_traffic R line = true ->
  processMessage R StatusInternalError line aoi = []
  /\ snd (onLine R StatusInternalError aoi line) = None
  /\ (forall q : Solution.t,
        apply_trace aoi q (fst (onLine R StatusInternalError aoi line)) = q)
  /\ (forall before after : list string,
        streamed_of R StatusInternalError aoi (before ++ line :: after)
        = streamed_of R StatusInternalError aoi (before ++ after)).
Proof.
  intros Hline.
  assert (Hnone : processMessage R StatusInternalError line aoi = []).
  { unfold not_protocol_traffic in Hline. unfold processMessage.
    destruct (Runtime.MessageFromString R line) as [parsed |]; [| reflexivity].
    destruct (Message.Action parsed); try reflexivity; try discriminate.
    - now destruct (Runtime.json_Unmarshal_LogBody R _).
    - now destruct (Runtime.json_Unmarshal_ErrorBody R _).
    - now destruct (Runtime.json_Unmarshal_PatchBody R _).
    - now destruct (Runtime.json_Unmarshal_DetailBody R _). }
  split; [exact Hnone |]. split; [reflexivity |]. split.
  - intros q. unfold onLine. simpl. now rewrite Hnone.
  - intros before after. unfold streamed_of.
    rewrite !List.flat_map_app. simpl. now rewrite Hnone.
Qed.

(** C6. For every claimed task whose judge configuration does not parse,
    or parses with an empty or absent [docker_cmd], [run] fails without
    having started a container, and [Start] then reports the failure: a
    patch with score 0, status Error and the error text as message (after
    the prefix [Failed to run solution: ]), the same text as details, and a
    complete call. *)
Theorem C6_config_error_reported (m : Manager.t) (soln : SolutionPoll.t) :
  claimed soln ->
  (exists e : string,
      Runtime.json_Unmarshal_RunningConfig R
        (JudgeConfig.Config (ProblemConfig.Judge (SolutionPoll.ProblemConfig soln)))
      = inl e)
  \/ (exists rc : RunningConfig.t,
         Runtime.json_Unmarshal_RunningConfig R
           (JudgeConfig.Config (ProblemConfig.Judge (SolutionPoll.ProblemConfig soln)))
         = inr rc
         /\ RunningConfig.DockerCmd rc = []) ->
  exists (before : list Event) (err : string),
    run R StatusInternalError m soln = (before, inl err)
    /\ dispatches before = 0%nat
    /\ Start_iteration R StatusInternalError m (inr soln)
       = before
           ++ [Patch (Solution soln)
                 (SolutionInfo.mk f64_zero StatusError ("Failed to run solution: " ++ err)%string);
               SaveDetails (Solution soln)
                 (SolutionDetails.mk 0 ("Failed to run solution: " ++ err)%string []);
               Complete (Solution soln)].
Proof.
  intros Hc Hbad.
  rewrite (Start_iteration_claimed R StatusInternalError m soln Hc).
  rewrite run_shape. cbv zeta.
  destruct Hbad as [[e He] | (rc & Hrc & Hcmd)].
  - rewrite He. eexists _, _. repeat split; reflexivity.
  - rewrite Hrc.
    destruct (Runtime.os_MkdirTemp R _) as [e | outputDir].
    + eexists _, _. repeat split; reflexivity.
    + unfold buildExecuteConfig. rewrite Hcmd. simpl.
      eexists _, _. repeat split; reflexivity.
Qed.

(** C10. For every claimed task whose judge configuration parses, the first
    effect of the orchestrator is a patch with status [Running], a status
    outside the enumerated set; it comes before the container is started,
    and it sets the solution record's info whether or not the sandbox ever
    emits a protocol message. *)
Theorem C10_running_patch_first (m : Manager.t) (soln : SolutionPoll.t)
    (rc : RunningConfig.t) :
  claimed soln ->
  Runtime.json_Unmarshal_RunningConfig R
    (JudgeConfig.Config (ProblemConfig.Judge (SolutionPoll.ProblemConfig soln))) = inr rc ->
  let running := SolutionInfo.mk f64_zero "Running" "评测开始" in
  (exists rest : list Event,
      Start_iteration R StatusInternalError m (inr soln)
      = Patch (Solution soln) running :: rest)
  /\ ~ In (SolutionInfo.Status running) enumerated_statuses
  /\ (forall q : Solution.t,
        Solution.Info (apply (Solution soln) q (Patch (Solution soln) running))
        = Some running).
Proof.
  intros Hc Hrc. cbv zeta. split; [| split].
  - rewrite (Start_iteration_claimed R StatusInternalError m soln Hc).
    rewrite run_shape. cbv zeta. rewrite Hrc.
    destruct (Runtime.os_MkdirTemp R _) as [e | outputDir]; [eexists; reflexivity |].
    destruct (buildExecuteConfig R m soln rc outputDir) as [e | config];
      [eexists; reflexivity |].
    destruct (snd (DockerExecutor.ExecuteWithLogs _ _ _)); eexists; reflexivity.
  - simpl. intros H. repeat (destruct H as [H | H]; [discriminate |]). exact H.
  - intros q. simpl. now rewrite same_client_refl.
Qed.

End OrchestratorClaims.

(** ** The execution specification *)

Section BuildClaims.

Import observe.

Variable R : Runtime.t.

(** Copying a map entry by entry into an empty map gives the map. *)
Lemma copy_env (env : gmap string string) :
  map_fold (fun k v (acc : gmap string string) => <[k := v]> acc) ∅ env = env.
Proof.
  apply (map_fold_weak_ind (fun acc env => acc = env)); [reflexivity |].
  intros k v m0 acc _ ->. reflexivity.
Qed.

Lemma buildExecuteConfig_ok (m : Manager.t) (soln : SolutionPoll.t)
    (rc : RunningConfig.t) (outputDir : string) :
  RunningConfig.DockerCmd rc <> [] ->
  buildExecuteConfig R m soln rc outputDir
  = inr (ExecuteConfig.mk (RunningConfig.Image rc) (RunningConfig.DockerCmd rc)
           (if RunningConfig.Timeout rc =? 0 then 600 else RunningConfig.Timeout rc)
           (if RunningConfig.MemoryLimit rc =? 0 then 2048
            else RunningConfig.MemoryLimit rc)
           (RunningConfig.CPULimit rc) (build_env R soln rc)
           (if String.eqb (RunningConfig.WorkDir rc) "" then "/home/judge"
            else RunningConfig.WorkDir rc)
           (build_mounts m rc outputDir)).
Proof.
  intros Hcmd. unfold buildExecuteConfig.
  destruct (RunningConfig.DockerCmd rc); [congruence | reflexivity].
Qed.

Lemma buildExecuteConfig_env (m : Manager.t) (soln : SolutionPoll.t)
    (rc : RunningConfig.t) (outputDir : string) (config : ExecuteConfig.t) :
  buildExecuteConfig R m soln rc outputDir = inr config ->
  ExecuteConfig.Env config = build_env R soln rc.
Proof.
  unfold buildExecuteConfig.
  destruct (length (RunningConfig.DockerCmd rc) =? 0)%nat; [discriminate |].
  intros [= <-]. reflexivity.
Qed.

(** C7. For every judge configuration with a command, the execution
    specification is built, and its timeout and memory limit are the
    declared ones, except that a timeout left zero becomes 600 seconds and a
    memory limit left zero becomes 2048 MB. *)
Theorem C7_default_limits (m : Manager.t) (soln : SolutionPoll.t)
    (rc : RunningConfig.t) (outputDir : string) :
  RunningConfig.DockerCmd rc <> [] ->
  exists config : ExecuteConfig.t,
    buildExecuteConfig R m soln rc outputDir = inr config
    /\ (RunningConfig.Timeout rc = 0 -> ExecuteConfig.Timeout config = 600)
    /\ (RunningConfig.Timeout rc <> 0 ->
        ExecuteConfig.Timeout config = RunningConfig.Timeout rc)
    /\ (RunningConfig.MemoryLimit rc = 0 -> ExecuteConfig.MemoryLimit config = 2048)
    /\ (RunningConfig.MemoryLimit rc <> 0 ->
        ExecuteConfig.MemoryLimit config = RunningConfig.MemoryLimit rc).
Proof.
  intros Hcmd. eexists. split; [apply buildExecuteConfig_ok, Hcmd |].
  simpl. repeat split.
  - intros ->. reflexivity.
  - intros Hne. apply Z.eqb_neq in Hne. now rewrite Hne.
  - intros ->. reflexivity.
  - intros Hne. apply Z.eqb_neq in Hne. now rewrite Hne.
Qed.

(** C9 (as amended). In every execution specification that is built, each
    of [SOLUTION_ID], [TASK_ID], [USER_ID], [CONTEST_ID],
    [SOLUTION_DATA_URL], [SOLUTION_DATA_HASH], [PROBLEM_DATA_URL],
    [PROBLEM_DATA_HASH], [PROBLEM_LABEL], [JUDGE_ADAPTER] and [OUTPUT_DIR]
    has the injected value, whatever the task-declared [env] map binds it
    to. [JUDGE_VARIABLES] has the injected value when the configuration
    declares [variables] and they serialise; when it declares none, the
    variable is whatever the task-declared [env] map says. *)
Theorem C9_fixed_variables_win (m : Manager.t) (soln : SolutionPoll.t)
    (rc : RunningConfig.t) (outputDir : string) (config : ExecuteConfig.t) :
  buildExecuteConfig R m soln rc outputDir = inr config ->
  (forall name value : string,
      In (name, value) (fixed_variables soln) ->
      ExecuteConfig.Env config !! name = Some value)
  /\ (forall (vars : gmap string any) (varsJSON : string),
        RunningConfig.Variables rc = Some vars ->
        Runtime.json_Marshal_Variables R vars = inr varsJSON ->
        ExecuteConfig.Env config !! "JUDGE_VARIABLES" = Some varsJSON)
  /\ (RunningConfig.Variables rc = None ->
      ExecuteConfig.Env config !! "JUDGE_VARIABLES"
      = RunningConfig.Env rc !! "JUDGE_VARIABLES").
Proof.
  intros Hbuild. rewrite (buildExecuteConfig_env _ _ _ _ _ Hbuild).
  unfold build_env. cbv zeta. rewrite copy_env.
  split; [| split].
  - intros name value Hin. simpl in Hin.
    destruct (RunningConfig.Variables rc) as [vars |];
      [destruct (Runtime.json_Marshal_Variables R vars) |];
      repeat (destruct Hin as [[= <- <-] | Hin]; [by simplify_map_eq |]);
      destruct Hin.
  - intros vars varsJSON -> ->. by simplify_map_eq.
  - intros ->. by simplify_map_eq.
Qed.

End BuildClaims.

(** ** The statements at concrete tasks *)

Section Instances.

Import queue observe.

Local Open Scope list_scope.



Lemma C2_witness_timeout_and_oom :
  let rt := scenario.runtime (inr scenario.limited_config) false scenario.no_report in
  let m := scenario.grader [scenario.complete_line] (inr scenario.killed_both) in
  let trace := Start_iteration rt scenario.internal_error m (inr scenario.task) in
  exists (before : list Event) (message summary : string),
    trace = before
              ++ [Patch (Solution scenario.task)
                    (SolutionInfo.mk f64_zero StatusTimeLimitExceeded message);
                  SaveDetails (Solution scenario.task) (SolutionDetails.mk 0 summary []);
                  Complete (Solution scenario.task);
                  RemoveAll "/tmp/judge-output-sol_abc123-1"]
    /\ Solution.Info (apply_trace (Solution scenario.task) scenario.fresh_record trace)
       = Some (SolutionInfo.mk f64_zero StatusTimeLimitExceeded message).
Proof.
  eapply (C2_timeout_oom_override
            (scenario.runtime (inr scenario.limited_config) false scenario.no_report)
            scenario.internal_error
            (scenario.grader [scenario.complete_line] (inr scenario.killed_both))
            scenario.task scenario.limited_config "/tmp/judge-output-sol_abc123-1"
            _ [scenario.complete_line] scenario.killed_both).
  - split; discriminate.
  - reflexivity.
  - reflexivity.
  - reflexivity.
  - reflexivity.
  - left. reflexivity.
Defined.

Lemma C4_witness_exit_1_no_report :
  let rt := scenario.runtime (inr scenario.plain_config) false scenario.no_report in
  let m := scenario.grader [scenario.chatter_line] (inr scenario.exit_failed) in
  let trace := Start_iteration rt scenario.internal_error m (inr scenario.task) in
  let info :=
    SolutionInfo.mk f64_zero scenario.internal_error
      "评测异常退出（退出码 1），未找到评测报告" in
  exists before : list Event,
    trace = before ++ [Patch (Solution scenario.task) info;
                       Complete (Solution scenario.task);
                       RemoveAll "/tmp/judge-output-sol_abc123-1"]
    /\ Solution.Info (apply_trace (Solution scenario.task) scenario.fresh_record trace)
       = Some info.
Proof.
  eapply (C4_internal_error_on_failed_exit
            (scenario.runtime (inr scenario.plain_config) false scenario.no_report)
            scenario.internal_error
            (scenario.grader [scenario.chatter_line] (inr scenario.exit_failed))
            scenario.task scenario.plain_config "/tmp/judge-output-sol_abc123-1"
            _ [scenario.chatter_line] scenario.exit_failed).
  - split; discriminate.
  - reflexivity.
  - reflexivity.
  - reflexivity.
  - reflexivity.
  - reflexivity.
  - reflexivity.
  - discriminate.
  - reflexivity.
Defined.

Lemma C5_witness_chatter :
  let rt := scenario.runtime (inr scenario.plain_config) false scenario.no_report in
  let aoi := Solution scenario.task in
  processMessage rt scenario.internal_error scenario.chatter_line aoi = []
  /\ snd (onLine rt scenario.internal_error aoi scenario.chatter_line) = None
  /\ (forall q : Solution.t,
        apply_trace aoi q (fst (onLine rt scenario.internal_error aoi scenario.chatter_line))
        = q)
  /\ (forall before after : list string,
        streamed_of rt scenario.internal_error aoi (before ++ scenario.chatter_line :: after)
        = streamed_of rt scenario.internal_error aoi (before ++ after)).
Proof.
  apply (C5_non_protocol_lines_ignored
           (scenario.runtime (inr scenario.plain_config) false scenario.no_report)
           scenario.internal_error (Solution scenario.task) scenario.chatter_line).
  reflexivity.
Defined.

Lemma C6_witness_no_command :
  let rt := scenario.runtime (inr scenario.no_command_config) false scenario.no_report in
  let m := scenario.grader [scenario.complete_line] scenario.exit_ok in
  exists (before : list Event) (err : string),
    run rt scenario.internal_error m scenario.task = (before, inl err)
    /\ dispatches before = 0%nat
    /\ Start_iteration rt scenario.internal_error m (inr scenario.task)
       = before
           ++ [Patch (Solution scenario.task)
                 (SolutionInfo.mk f64_zero StatusError
                    ("Failed to run solution: " ++ err)%string);
               SaveDetails (Solution scenario.task)
                 (SolutionDetails.mk 0 ("Failed to run solution: " ++ err)%string []);
               Complete (Solution scenario.task)].
Proof.
  apply (C6_config_error_reported
           (scenario.runtime (inr scenario.no_command_config) false scenario.no_report)
           scenario.internal_error
           (scenario.grader [scenario.complete_line] scenario.exit_ok)
           scenario.task).
  - split; discriminate.
  - right. exists scenario.no_command_config. split; reflexivity.
Defined.

Lemma C7_witness_defaults :
  let rt := scenario.runtime (inr scenario.plain_config) false scenario.no_report in
  let m := scenario.grader [] scenario.exit_ok in
  exists config : ExecuteConfig.t,
    buildExecuteConfig rt m scenario.task scenario.plain_config "/tmp/out" = inr config
    /\ (RunningConfig.Timeout scenario.plain_config = 0 ->
        ExecuteConfig.Timeout config = 600)
    /\ (RunningConfig.Timeout scenario.plain_config <> 0 ->
        ExecuteConfig.Timeout config = RunningConfig.Timeout scenario.plain_config)
    /\ (RunningConfig.MemoryLimit scenario.plain_config = 0 ->
        ExecuteConfig.MemoryLimit config = 2048)
    /\ (RunningConfig.MemoryLimit scenario.plain_config <> 0 ->
        ExecuteConfig.MemoryLimit config = RunningConfig.MemoryLimit scenario.plain_config).
Proof.
  apply (C7_default_limits
           (scenario.runtime (inr scenario.plain_config) false scenario.no_report)
           (scenario.grader [] scenario.exit_ok)
           scenario.task scenario.plain_config "/tmp/out").
  discriminate.
Defined.

(** C9, the claim as written fails: the configuration declares no
    [variables] and its [env] map binds [JUDGE_VARIABLES]; the orchestrator
    injects nothing under that name and the container sees the
    task-declared value. *)
Lemma C9_counterexample_judge_variables :
  let rt := scenario.runtime (inr scenario.shadowing_config) false scenario.no_report in
  let m := scenario.grader [] scenario.exit_ok in
  exists config : ExecuteConfig.t,
    buildExecuteConfig rt m scenario.task scenario.shadowing_config "/tmp/out" = inr config
    /\ RunningConfig.Env scenario.shadowing_config !! "JUDGE_VARIABLES" = Some "spoofed"
    /\ ExecuteConfig.Env config !! "JUDGE_VARIABLES" = Some "spoofed".
Proof.
  cbv zeta. eexists. split; [reflexivity |].
  split; vm_compute; reflexivity.
Qed.

Lemma C9_witness_shadowing_config :
  let rt := scenario.runtime (inr scenario.shadowing_config) false scenario.no_report in
  let m := scenario.grader [] scenario.exit_ok in
  exists config : ExecuteConfig.t,
    buildExecuteConfig rt m scenario.task scenario.shadowing_config "/tmp/out" = inr config
    /\ (forall name value : string,
          In (name, value) (fixed_variables scenario.task) ->
          ExecuteConfig.Env config !! name = Some value)
    /\ (forall (vars : gmap string any) (varsJSON : string),
          RunningConfig.Variables scenario.shadowing_config = Some vars ->
          Runtime.json_Marshal_Variables rt vars = inr varsJSON ->
          ExecuteConfig.Env config !! "JUDGE_VARIABLES" = Some varsJSON)
    /\ (RunningConfig.Variables scenario.shadowing_config = None ->
        ExecuteConfig.Env config !! "JUDGE_VARIABLES"
        = RunningConfig.Env scenario.shadowing_config !! "JUDGE_VARIABLES").
Proof.
  cbv zeta. eexists. split; [reflexivity |].
  apply (C9_fixed_variables_win
           (scenario.runtime (inr scenario.shadowing_config) false scenario.no_report)
           (scenario.grader [] scenario.exit_ok)
           scenario.task scenario.shadowing_config "/tmp/out").
  reflexivity.
Defined.

Lemma C10_witness_plain_task :
  let rt := scenario.runtime (inr scenario.plain_config) false scenario.no_report in
  let m := scenario.grader [] scenario.exit_ok in
  let running := SolutionInfo.mk f64_zero "Running" "评测开始" in
  (exists rest : list Event,
      Start_iteration rt scenario.internal_error m (inr scenario.task)
      = Patch (Solution scenario.task) running :: rest)
  /\ ~ In (SolutionInfo.Status running) enumerated_statuses
  /\ (forall q : Solution.t,
        Solution.Info (apply (Solution scenario.task) q
                         (Patch (Solution scenario.task) running))
        = Some running).
Proof.
  apply (C10_running_patch_first
           (scenario.runtime (inr scenario.plain_config) false scenario.no_report)
           scenario.internal_error
           (scenario.grader [] scenario.exit_ok)
           scenario.task scenario.plain_config).
  - split; discriminate.
  - reflexivity.
Defined.

End Instances.

(** * Further properties *)

(** ** The adapter: jobs and summaries *)

Section AdapterJobs.

Import adapters observe2.

Lemma length_append (a b : string) :
  String.length (a ++ b)%string = (String.length a + String.length b)%nat.
Proof.
  induction a as [| c a IH]; [reflexivity |].
  rewrite append_cons. simpl. now rewrite IH.
Qed.

Lemma length_substring_0 (n : nat) (s : string) :
  (n <= String.length s)%nat -> String.length (String.substring 0 n s) = n.
Proof.
  revert s. induction n as [| n IH]; intros s Hn.
  - now destruct s.
  - destruct s as [| c s]; simpl in Hn; [lia |].
    simpl. rewrite IH; [reflexivity | lia].
Qed.

Lemma outcomeToStatus_accepted (outcome : string) :
  outcomeToStatus outcome = StatusAccepted <-> passing_outcome outcome = true.
Proof.
  unfold outcomeToStatus, passing_outcome.
  destruct (String.eqb outcome "passed") eqn:H1; [now split |].
  destruct (String.eqb outcome "failed") eqn:H2.
  { apply String.eqb_eq in H2. subst outcome. now split. }
  destruct (String.eqb outcome "skipped") eqn:H3.
  { apply String.eqb_eq in H3. subst outcome. now split. }
  destruct (String.eqb outcome "xfailed") eqn:H4; [now split |].
  destruct (String.eqb outcome "xpassed") eqn:H5; [now split |].
  now split.
Qed.

Lemma outcomeToStatus_skipped (outcome : string) :
  outcomeToStatus outcome = "Skipped" <-> outcome = "skipped".
Proof.
  unfold outcomeToStatus.
  destruct (String.eqb outcome "passed") eqn:H1.
  { apply String.eqb_eq in H1. subst outcome. now split. }
  destruct (String.eqb outcome "failed") eqn:H2.
  { apply String.eqb_eq in H2. subst outcome. now split. }
  destruct (String.eqb outcome "skipped") eqn:H3.
  { apply String.eqb_eq in H3. now split. }
  apply String.eqb_neq in H3.
  destruct (String.eqb outcome "xfailed") eqn:H4; [now split |].
  destruct (String.eqb outcome "xpassed") eqn:H5; now split.
Qed.

(** X1. The job built for a test case has score 100 exactly when its
    status is Accepted, which is exactly when the outcome is [passed],
    [xfailed] or [xpassed]; otherwise its score is 0. Its status is
    Accepted, Wrong Answer or, for a skipped test only, [Skipped], a value
    outside the enumerated status set; any outcome the adapter does not
    know is graded Wrong Answer. *)
Theorem X1_test_job_score_matches_status (test : PytestTestCase.t) :
  let job := test_job test in
  let outcome := PytestTestCase.Outcome test in
  (SolutionDetailsJob.Status job = StatusAccepted <-> passing_outcome outcome = true)
  /\ (SolutionDetailsJob.Score job = f64_of_int 100
      <-> SolutionDetailsJob.Status job = StatusAccepted)
  /\ (SolutionDetailsJob.Score job = f64_zero
      <-> SolutionDetailsJob.Status job <> StatusAccepted)
  /\ (SolutionDetailsJob.Status job = "Skipped" <-> outcome = "skipped")
  /\ (passing_outcome outcome = false -> outcome <> "skipped" ->
      SolutionDetailsJob.Status job = StatusWrongAnswer)
  /\ ~ In "Skipped" enumerated_statuses.
Proof.
  cbv zeta. unfold test_job. simpl.
  fold (passing_outcome (PytestTestCase.Outcome test)).
  pose proof (outcomeToStatus_accepted (PytestTestCase.Outcome test)) as Hacc.
  pose proof (outcomeToStatus_skipped (PytestTestCase.Outcome test)) as Hskip.
  split; [exact Hacc |].
  split; [| split; [| split; [exact Hskip | split]]].
  - destruct (passing_outcome _); split; intros H.
    + now apply Hacc.
    + reflexivity.
    + discriminate.
    + apply Hacc in H. discriminate.
  - destruct (passing_outcome _); split; intros H.
    + discriminate.
    + exfalso. apply H. now apply Hacc.
    + intros Heq. apply Hacc in Heq. discriminate.
    + reflexivity.
  - intros Hfail Hns. unfold outcomeToStatus. unfold passing_outcome in Hfail.
    apply orb_false_elim in Hfail as [Hfail H5].
    apply orb_false_elim in Hfail as [H1 H4].
    rewrite H1, H4, H5. apply String.eqb_neq in Hns. rewrite Hns.
    now destruct (String.eqb _ "failed").
  - simpl. intros H. repeat (destruct H as [H | H]; [discriminate |]). exact H.
Qed.

(** X2. For a failed test case, a non-empty crash message is the summary,
    whatever its length; without one the summary is the trace, cut to its
    first 200 bytes followed by [...] when it is longer than 200 bytes, so
    that the summary is at most 203 bytes long; without a trace it is a
    fixed text. *)
Theorem X2_failed_summary_bounded (test : PytestTestCase.t) :
  PytestTestCase.Outcome test = "failed" ->
  (forall message : string,
      crash_message test = Some message -> generateTestSummary test = message)
  /\ (crash_message test = None ->
      (String.length (generateTestSummary test) <= 203)%nat)
  /\ (forall call : PytestTestPhase.t,
        crash_message test = None ->
        PytestTestCase.Call test = Some call ->
        (200 < String.length (PytestTestPhase.Longrepr call))%nat ->
        generateTestSummary test
        = (String.substring 0 200 (PytestTestPhase.Longrepr call) ++ "...")%string
        /\ String.length (generateTestSummary test) = 203%nat)
  /\ (forall call : PytestTestPhase.t,
        crash_message test = None ->
        PytestTestCase.Call test = Some call ->
        (String.length (PytestTestPhase.Longrepr call) <= 200)%nat ->
        PytestTestPhase.Longrepr call <> "" ->
        generateTestSummary test = PytestTestPhase.Longrepr call).
Proof.
  intros Hfailed.
  assert (Hgen : generateTestSummary test = failed_summary test).
  { unfold generateTestSummary. now rewrite Hfailed. }
  rewrite Hgen. unfold failed_summary.
  split; [| split; [| split]].
  - intros message ->. reflexivity.
  - intros ->. destruct (PytestTestCase.Call test) as [call |]; [| simpl; lia].
    destruct (String.eqb (PytestTestPhase.Longrepr call) ""); [simpl; lia |].
    simpl negb. cbv iota.
    destruct (200 <? String.length (PytestTestPhase.Longrepr call))%nat eqn:Hlen.
    + apply Nat.ltb_lt in Hlen. unfold slice_to.
      rewrite length_append, length_substring_0 by lia. simpl. lia.
    + apply Nat.ltb_ge in Hlen. lia.
  - intros call -> -> Hlen.
    assert (Hne : String.eqb (PytestTestPhase.Longrepr call) "" = false).
    { apply String.eqb_neq. intros Heq. rewrite Heq in Hlen. simpl in Hlen. lia. }
    rewrite Hne. simpl negb. cbv iota.
    apply Nat.ltb_lt in Hlen as Hlt. rewrite Hlt. unfold slice_to.
    split; [reflexivity |].
    rewrite length_append, length_substring_0 by lia. reflexivity.
  - intros call -> -> Hlen Hne.
    apply String.eqb_neq in Hne. rewrite Hne. simpl negb. cbv iota.
    apply Nat.ltb_ge in Hlen. now rewrite Hlen.
Qed.

Lemma X2_witness_long_trace :
  (forall message : string,
      crash_message scenario2.failed_case = Some message ->
      generateTestSummary scenario2.failed_case = message)
  /\ (crash_message scenario2.failed_case = None ->
      (String.length (generateTestSummary scenario2.failed_case) <= 203)%nat)
  /\ (forall call : PytestTestPhase.t,
        crash_message scenario2.failed_case = None ->
        PytestTestCase.Call scenario2.failed_case = Some call ->
        (200 < String.length (PytestTestPhase.Longrepr call))%nat ->
        generateTestSummary scenario2.failed_case
        = (String.substring 0 200 (PytestTestPhase.Longrepr call) ++ "...")%string
        /\ String.length (generateTestSummary scenario2.failed_case) = 203%nat)
  /\ (forall call : PytestTestPhase.t,
        crash_message scenario2.failed_case = None ->
        PytestTestCase.Call scenario2.failed_case = Some call ->
        (String.length (PytestTestPhase.Longrepr call) <= 200)%nat ->
        PytestTestPhase.Longrepr call <> "" ->
        generateTestSummary scenario2.failed_case = PytestTestPhase.Longrepr call).
Proof.
  apply (X2_failed_summary_bounded scenario2.failed_case). reflexivity.
Defined.

(** X3. The result of the second revision of [CalculateScore] never
    carries a status other than Accepted and Wrong Answer; its details
    have version 1, the message as summary, and one job per test case of
    the report, each with score scale 1 and no tests of its own. *)
Theorem X3_CalculateScore_result_shape (report : PytestReport.t) :
  let r := CalculateScore report in
  let details := LFS1Result.Details r in
  (LFS1Result.Status r = StatusAccepted \/ LFS1Result.Status r = StatusWrongAnswer)
  /\ SolutionDetails.Version details = 1
  /\ SolutionDetails.Summary details = LFS1Result.Message r
  /\ length (SolutionDetails.Jobs details) = length (PytestReport.Tests report)
  /\ Forall (fun job => SolutionDetailsJob.ScoreScale job = f64_of_int 1
                        /\ SolutionDetailsJob.Tests job = [])
       (SolutionDetails.Jobs details).
Proof.
  cbv zeta. split.
  - rewrite CalculateScore_status. unfold verdict.
    destruct (_ && _); [now left |]. destruct (0 <? _); now right.
  - unfold CalculateScore. destruct (verdict _ _ _) as [status message]. simpl.
    split; [reflexivity |]. split; [reflexivity |].
    split; [apply List.length_map |].
    apply List.Forall_forall. intros job Hin.
    apply List.in_map_iff in Hin as (test & <- & _). now split.
Qed.

End AdapterJobs.

(** ** The adapter: test names *)

Section TestNames.

Import adapters observe2.

Local Open Scope list_scope.

Lemma string_snoc (l : list ascii) (c : ascii) (s : string) :
  (string_of_list_ascii (l ++ [c]) ++ s)%string
  = (string_of_list_ascii l ++ String c s)%string.
Proof.
  induction l as [| x l IH]; [reflexivity |].
  simpl. now rewrite !append_cons, IH.
Qed.

Lemma snoc_split {A : Type} (l a b : list A) (c : A) :
  l ++ [c] = a ++ b -> b <> [] -> exists b', b = b' ++ [c] /\ l = a ++ b'.
Proof.
  intros Heq Hb. destruct (List.exists_last Hb) as (b' & x & ->).
  rewrite List.app_assoc in Heq. apply List.app_inj_tail in Heq as [-> ->].
  now exists b'.
Qed.

Lemma last_cons_nonempty {A : Type} (x : A) (l : list A) (d : A) :
  l <> [] -> List.last (x :: l) d = List.last l d.
Proof. now destruct l. Qed.

Lemma last_map_Some {A : Type} (l : list A) (d : A) :
  l <> [] -> List.last (List.map Some l) None = Some (List.last l d).
Proof.
  induction l as [| x l IH]; [congruence |]. intros _.
  destruct l as [| y l]; [reflexivity |].
  change (List.map Some (x :: y :: l)) with (Some x :: List.map Some (y :: l)).
  rewrite !last_cons_nonempty by discriminate. now apply IH.
Qed.

Lemma split_go_nonempty (sep : string) (s : string) (skip : nat) (cur : list ascii) :
  split_go sep skip cur s <> [].
Proof.
  revert skip cur.
  induction s as [| c s IH]; intros skip cur; cbn [split_go]; [discriminate |].
  destruct skip; [| apply IH].
  destruct (String.prefix sep (String c s)); [discriminate | apply IH].
Qed.

Lemma extractTestName_last (nodeid : string) :
  extractTestName nodeid = List.last (strings_Split nodeid "::") nodeid.
Proof.
  unfold extractTestName.
  now rewrite (last_map_Some _ nodeid) by apply split_go_nonempty.
Qed.

(** Without an occurrence of the separator there is one piece. *)
Lemma split_go_no_separator (sep : string) (s : string) (cur : list ascii) :
  contains sep s = false ->
  split_go sep 0 cur s = [(string_of_list_ascii (rev cur) ++ s)%string].
Proof.
  revert cur. induction s as [| c s IH]; intros cur Hs.
  - simpl. now rewrite append_empty_r.
  - cbn [contains] in Hs. apply orb_false_elim in Hs as [Hp Hs].
    cbn [split_go]. rewrite Hp. rewrite (IH (c :: cur) Hs). simpl rev.
    now rewrite string_snoc.
Qed.

(** The last piece is a suffix of what has been read and what is left. *)
Lemma split_go_last_suffix (sep : string) (d : string) (s : string) :
  forall (skip : nat) (cur : list ascii),
    (skip <> 0%nat -> cur = []) ->
    exists pre : string,
      (string_of_list_ascii (rev cur) ++ s)%string
      = (pre ++ List.last (split_go sep skip cur s) d)%string.
Proof.
  induction s as [| c s IH]; intros skip cur Hskip.
  - exists "". simpl. now rewrite append_empty_r.
  - cbn [split_go]. destruct skip as [| k].
    + destruct (String.prefix sep (String c s)).
      * rewrite last_cons_nonempty by apply split_go_nonempty.
        destruct (IH (Nat.pred (String.length sep)) []) as [pre Hpre]; [reflexivity |].
        simpl in Hpre. rewrite append_empty_l in Hpre.
        exists (string_of_list_ascii (rev cur) ++ String c pre)%string.
        rewrite append_assoc, append_cons. now rewrite <- Hpre.
      * destruct (IH 0%nat (c :: cur)) as [pre Hpre]; [congruence |].
        exists pre. rewrite <- Hpre. simpl rev. now rewrite string_snoc.
    + rewrite (Hskip ltac:(discriminate)).
      destruct (IH k []) as [pre Hpre]; [reflexivity |].
      simpl in Hpre. rewrite append_empty_l in Hpre.
      exists (String c pre). simpl rev. simpl string_of_list_ascii.
      rewrite append_empty_l, append_cons. now rewrite <- Hpre.
Qed.

Lemma contains_of_clean (sep : string) (l : list ascii) :
  (forall a b : list ascii,
      l = a ++ b -> b <> [] ->
      String.prefix sep (string_of_list_ascii b ++ "")%string = false) ->
  contains sep (string_of_list_ascii l) = false.
Proof.
  induction l as [| x l IH]; intros Hclean; [reflexivity |].
  cbn [string_of_list_ascii contains]. apply orb_false_intro.
  - specialize (Hclean [] (x :: l) eq_refl ltac:(discriminate)).
    now rewrite append_empty_r in Hclean.
  - apply IH. intros a b -> Hb. now apply (Hclean (x :: a) b).
Qed.

(** The last piece holds no occurrence of the separator, provided none
    starts in the bytes read so far. *)
Lemma split_go_last_clean (sep : string) (d : string) (s : string) :
  forall (skip : nat) (cur : list ascii),
    (skip <> 0%nat -> cur = []) ->
    (forall a b : list ascii,
        rev cur = a ++ b -> b <> [] ->
        String.prefix sep (string_of_list_ascii b ++ s)%string = false) ->
    contains sep (List.last (split_go sep skip cur s) d) = false.
Proof.
  induction s as [| c s IH]; intros skip cur Hskip Hclean.
  - simpl. now apply contains_of_clean.
  - cbn [split_go]. destruct skip as [| k].
    + destruct (String.prefix sep (String c s)) eqn:Hp.
      * rewrite last_cons_nonempty by apply split_go_nonempty.
        apply IH; [reflexivity |].
        intros a b Hab Hb. simpl in Hab.
        destruct a, b; simpl in Hab; congruence.
      * apply IH; [congruence |].
        intros a b Hab Hb. simpl in Hab.
        destruct (snoc_split _ _ _ _ Hab Hb) as (b' & -> & Hcur).
        rewrite string_snoc. destruct b' as [| y b'].
        -- exact Hp.
        -- apply (Hclean a (y :: b') Hcur). discriminate.
    + rewrite (Hskip ltac:(discriminate)). apply IH; [reflexivity |].
      intros a b Hab Hb. simpl in Hab.
      destruct a, b; simpl in Hab; congruence.
Qed.

(** X4. The test name extracted from a node id is a suffix of the node id
    and holds no [::]; a node id without [::] is its own test name, and
    extracting twice changes nothing. *)
Theorem X4_extractTestName_suffix_without_separator (nodeid : string) :
  (exists pre : string, nodeid = (pre ++ extractTestName nodeid)%string)
  /\ contains "::" (extractTestName nodeid) = false
  /\ (contains "::" nodeid = false -> extractTestName nodeid = nodeid)
  /\ extractTestName (extractTestName nodeid) = extractTestName nodeid.
Proof.
  assert (Hclean : contains "::" (extractTestName nodeid) = false).
  { rewrite extractTestName_last. unfold strings_Split.
    apply split_go_last_clean; [congruence |].
    intros a b Hab Hb. destruct a, b; simpl in Hab; congruence. }
  assert (Hself : forall s, contains "::" s = false -> extractTestName s = s).
  { intros s Hs. rewrite extractTestName_last. unfold strings_Split.
    rewrite (split_go_no_separator "::" s [] Hs). reflexivity. }
  split; [| split; [exact Hclean | split; [apply Hself | now apply Hself]]].
  rewrite extractTestName_last. unfold strings_Split.
  destruct (split_go_last_suffix "::" nodeid nodeid 0%nat []) as [pre Hpre]; [congruence |].
  exists pre. exact Hpre.
Qed.

End TestNames.

(** ** The execution specification, continued *)

Section BuildExtras.

Import observe observe2.

Local Open Scope list_scope.

Variable R : Runtime.t.


(** X6. Every execution specification that is built has the declared image,
    command and CPU limit, a non-empty command, a non-empty working
    directory (the declared one, or [/home/judge]), and a timeout and a
    memory limit different from zero. *)
Theorem X6_built_spec_invariants (m : Manager.t) (soln : SolutionPoll.t)
    (rc : RunningConfig.t) (outputDir : string) (config : ExecuteConfig.t) :
  buildExecuteConfig R m soln rc outputDir = inr config ->
  ExecuteConfig.Image config = RunningConfig.Image rc
  /\ ExecuteConfig.Command config = RunningConfig.DockerCmd rc
  /\ ExecuteConfig.CPULimit config = RunningConfig.CPULimit rc
  /\ ExecuteConfig.Command config <> []
  /\ ExecuteConfig.WorkDir config <> ""
  /\ (RunningConfig.WorkDir rc = "" -> ExecuteConfig.WorkDir config = "/home/judge")
  /\ (RunningConfig.WorkDir rc <> "" ->
      ExecuteConfig.WorkDir config = RunningConfig.WorkDir rc)
  /\ ExecuteConfig.Timeout config <> 0
  /\ ExecuteConfig.MemoryLimit config <> 0.
Proof.
  intros Hbuild.
  destruct (RunningConfig.DockerCmd rc) as [| arg args] eqn:Hcmd.
  { unfold buildExecuteConfig in Hbuild. rewrite Hcmd in Hbuild. discriminate. }
  rewrite buildExecuteConfig_ok in Hbuild by (rewrite Hcmd; discriminate).
  injection Hbuild as <-. simpl. rewrite Hcmd.
  repeat split; try discriminate.
  - destruct (String.eqb (RunningConfig.WorkDir rc) "") eqn:Hw; [discriminate |].
    now apply String.eqb_neq.
  - intros ->. reflexivity.
  - intros Hw. apply String.eqb_neq in Hw. now rewrite Hw.
  - destruct (RunningConfig.Timeout rc =? 0) eqn:Ht; [discriminate |].
    now apply Z.eqb_neq.
  - destruct (RunningConfig.MemoryLimit rc =? 0) eqn:Hm; [discriminate |].
    now apply Z.eqb_neq.
Qed.

Lemma not_reserved_neq (name key : string) :
  ~ In name reserved_names -> In key reserved_names -> key <> name.
Proof. intros Hnot Hin ->. now apply Hnot. Qed.

(** X7. In every execution specification that is built, a variable whose
    name is none of the twelve names the orchestrator writes has exactly
    the binding of the task-declared [env] map: custom variables are passed
    through unchanged, and no other variable is added. *)
Theorem X7_custom_env_passes_through (m : Manager.t) (soln : SolutionPoll.t)
    (rc : RunningConfig.t) (outputDir : string) (config : ExecuteConfig.t)
    (name : string) :
  buildExecuteConfig R m soln rc outputDir = inr config ->
  ~ In name reserved_names ->
  ExecuteConfig.Env config !! name = RunningConfig.Env rc !! name.
Proof.
  intros Hbuild Hname. rewrite (buildExecuteConfig_env _ _ _ _ _ _ Hbuild).
  unfold build_env. cbv zeta. rewrite copy_env.
  assert (Hne : forall key, In key reserved_names -> key <> name)
    by (intros key; now apply not_reserved_neq).
  rewrite lookup_insert_ne by (apply Hne; simpl; tauto).
  assert (Hvars :
    forall env : gmap string string,
      match RunningConfig.Variables rc with
      | Some vars =>
          match Runtime.json_Marshal_Variables R vars with
          | inr varsJSON => <["JUDGE_VARIABLES" := varsJSON]> env
          | inl _ => env
          end
      | None => env
      end !! name = env !! name).
  { intros env. destruct (RunningConfig.Variables rc) as [vars |]; [| reflexivity].
    destruct (Runtime.json_Marshal_Variables R vars); [reflexivity |].
    apply lookup_insert_ne, Hne. simpl. tauto. }
  rewrite Hvars.
  repeat (rewrite lookup_insert_ne by (apply Hne; simpl; tauto)).
  reflexivity.
Qed.

Lemma lookup_map (A B : Type) (f : A -> B) (l : list A) (i : nat) :
  List.map f l !! i = f <$> (l !! i).
Proof.
  revert i. induction l as [| x l IH]; intros [| i]; simpl; try reflexivity. apply IH.
Qed.

(** X8. The mount list of a built specification starts with the output
    directory, mounted read-write at [/output]; the task-declared mounts
    follow in their order, unchanged; when a shared volume is configured it
    comes next, mounted read-only at [/data], then its [uv-cache]
    directory; and there is nothing else. *)
Theorem X8_mount_layout (m : Manager.t) (soln : SolutionPoll.t)
    (rc : RunningConfig.t) (outputDir : string) (config : ExecuteConfig.t) :
  buildExecuteConfig R m soln rc outputDir = inr config ->
  let mounts := ExecuteConfig.Mounts config in
  let declared := RunningConfig.Mounts rc in
  let shared := ManagerConfig.SharedVolumePath (Manager.conf m) in
  mounts !! 0%nat = Some (Mount.mk outputDir "/output" false)
  /\ (forall (i : nat) (mount : MountConfig.t),
        declared !! i = Some mount ->
        mounts !! S i
        = Some (Mount.mk (MountConfig.Source mount) (MountConfig.Target mount)
                  (MountConfig.ReadOnly mount)))
  /\ (shared = "" -> length mounts = S (length declared))
  /\ (shared <> "" ->
      length mounts = S (S (S (length declared)))
      /\ mounts !! S (length declared) = Some (Mount.mk shared "/data" true)
      /\ mounts !! S (S (length declared))
         = Some (Mount.mk (shared ++ "/uv-cache")%string "/root/.cache/uv" false)).
Proof.
  intros Hbuild. cbv zeta.
  destruct (RunningConfig.DockerCmd rc) as [| arg args] eqn:Hcmd.
  { unfold buildExecuteConfig in Hbuild. rewrite Hcmd in Hbuild. discriminate. }
  rewrite buildExecuteConfig_ok in Hbuild by (rewrite Hcmd; discriminate).
  injection Hbuild as <-. cbn [ExecuteConfig.Mounts]. unfold build_mounts. cbv zeta.
  set (conv := fun mount => Mount.mk (MountConfig.Source mount) (MountConfig.Target mount)
                              (MountConfig.ReadOnly mount)).
  set (declared := RunningConfig.Mounts rc).
  set (shared := ManagerConfig.SharedVolumePath (Manager.conf m)).
  assert (Hconv : forall i mount,
             declared !! i = Some mount -> List.map conv declared !! i = Some (conv mount)).
  { intros i mount Hi. now rewrite lookup_map, Hi. }
  destruct (String.eqb shared "") eqn:Hs; simpl negb; cbv iota.
  - apply String.eqb_eq in Hs. split; [reflexivity |].
    split; [intros i mount Hi; now apply Hconv |].
    split; [intros _; simpl; now rewrite List.length_map |].
    intros Hne. congruence.
  - apply String.eqb_neq in Hs. split; [reflexivity |].
    split.
    { intros i mount Hi. simpl. apply lookup_app_l_Some. now apply Hconv. }
    split; [congruence |]. intros _.
    split; [simpl; rewrite List.length_app, List.length_map; simpl; lia |].
    split.
    + simpl. rewrite lookup_app_r by (rewrite List.length_map; lia).
      rewrite List.length_map, Nat.sub_diag. reflexivity.
    + simpl. rewrite lookup_app_r by (rewrite List.length_map; lia).
      rewrite List.length_map.
      replace (S (length declared) - length declared)%nat with 1%nat by lia.
      reflexivity.
Qed.

(** X9. For a declared timeout from 0 to 9223372026 seconds, the deadline
    handed to the executor is the timeout of the specification (600 when
    none is declared) plus 10 seconds, in nanoseconds, without wrap-around
    of the 64-bit duration. *)
Theorem X9_deadline_is_timeout_plus_grace (m : Manager.t) (soln : SolutionPoll.t)
    (rc : RunningConfig.t) (outputDir : string) (config : ExecuteConfig.t) :
  buildExecuteConfig R m soln rc outputDir = inr config ->
  0 <= RunningConfig.Timeout rc <= 9223372026 ->
  context_timeout config = (ExecuteConfig.Timeout config + 10) * 1000000000
  /\ (RunningConfig.Timeout rc = 0 -> context_timeout config = 610000000000)
  /\ 0 < context_timeout config.
Proof.
  intros Hbuild Hrange.
  destruct (RunningConfig.DockerCmd rc) as [| arg args] eqn:Hcmd.
  { unfold buildExecuteConfig in Hbuild. rewrite Hcmd in Hbuild. discriminate. }
  rewrite buildExecuteConfig_ok in Hbuild by (rewrite Hcmd; discriminate).
  injection Hbuild as <-. unfold context_timeout. cbn [ExecuteConfig.Timeout].
  set (t := if RunningConfig.Timeout rc =? 0 then 600 else RunningConfig.Timeout rc).
  assert (Ht : 0 < t <= 9223372026).
  { unfold t. destruct (RunningConfig.Timeout rc =? 0) eqn:H0; [lia |].
    apply Z.eqb_neq in H0. lia. }
  unfold int_mul, int_add.
  rewrite (wrap64_in_range (t + 10)) by (unfold int_range; lia).
  rewrite wrap64_in_range by (unfold int_range; lia).
  split; [reflexivity |]. split; [| lia].
  intros H0. unfold t. rewrite H0. reflexivity.
Qed.

End BuildExtras.

(** ** The orchestrator, continued *)

Section RunExtras.

Import queue observe observe2.

Local Open Scope list_scope.

Variable R : Runtime.t.
Variable StatusInternalError : string.

(** *** Traces made of queue calls for one task *)

Lemma queue_calls_no_local_effect (aoi : SolutionClient.t) (t : list Event) :
  Forall (queue_call_of aoi) t ->
  List.filter is_remove t = [] /\ List.filter is_execute t = [].
Proof.
  induction 1 as [| e t He _ [IHr IHx]]; [now split |].
  destruct e; simpl in He; try contradiction; simpl; now split.
Qed.

Lemma processMessage_queue_calls (aoi : SolutionClient.t) (line : string) :
  Forall (queue_call_of aoi) (processMessage R StatusInternalError line aoi)
  /\ (length (processMessage R StatusInternalError line aoi) <= 1)%nat.
Proof.
  unfold processMessage.
  destruct (Runtime.MessageFromString R line) as [parsed |];
    [destruct (Message.Action parsed) |].
  3: destruct (Runtime.json_Unmarshal_LogBody R _).
  5: destruct (Runtime.json_Unmarshal_ErrorBody R _).
  7: destruct (Runtime.json_Unmarshal_PatchBody R _).
  9: destruct (Runtime.json_Unmarshal_DetailBody R _).
  all: split; [repeat constructor | simpl; lia].
Qed.

Lemma streamed_queue_calls (aoi : SolutionClient.t) (lines : list string) :
  Forall (queue_call_of aoi) (streamed_of R StatusInternalError aoi lines)
  /\ (length (streamed_of R StatusInternalError aoi lines) <= length lines)%nat.
Proof.
  induction lines as [| line lines [IHq IHl]]; [split; [constructor | reflexivity] |].
  rewrite streamed_cons.
  destruct (processMessage_queue_calls aoi line) as [Hq Hl].
  split; [now apply Forall_app | rewrite List.length_app; simpl; lia].
Qed.


Lemma process_report_queue_calls (soln : SolutionPoll.t) (rc : RunningConfig.t)
    (outputDir : string) (aoi : SolutionClient.t) :
  Forall (queue_call_of aoi)
    (fst (process_report R StatusInternalError soln rc outputDir aoi)).
Proof.
  unfold process_report.
  destruct (String.eqb _ "lfs1"); [| constructor].
  destruct (Runtime.os_Stat R _); [| constructor].
  destruct (ParsePytestReport R _); repeat constructor.
Qed.

(** The outcome policy makes queue calls only, and its last one is the
    complete call. *)
Lemma finalize_ends_with_complete (soln : SolutionPoll.t) (rc : RunningConfig.t)
    (outputDir : string) (aoi : SolutionClient.t) (execConfig : ExecuteConfig.t)
    (result : ExecuteResult.t) :
  exists before : list Event,
    fst (finalize R StatusInternalError soln rc outputDir aoi execConfig result)
    = before ++ [Complete aoi]
    /\ Forall (queue_call_of aoi) before.
Proof.
  destruct (ExecuteResult.TimedOut result) eqn:Ht;
    [| destruct (ExecuteResult.OOM result) eqn:Ho].
  - unfold finalize. rewrite Ht. eexists [_; _]. split; [reflexivity |].
    repeat constructor.
  - unfold finalize. rewrite Ht, Ho. eexists [_; _]. split; [reflexivity |].
    repeat constructor.
  - rewrite finalize_normal by assumption. cbn [fst].
    eexists (_ ++ _). split; [now rewrite List.app_assoc |].
    apply Forall_app. split; [apply process_report_queue_calls |].
    destruct (negb _ && negb _); repeat constructor.
Qed.

Lemma finalize_queue_calls (soln : SolutionPoll.t) (rc : RunningConfig.t)
    (outputDir : string) (aoi : SolutionClient.t) (execConfig : ExecuteConfig.t)
    (result : ExecuteResult.t) :
  Forall (queue_call_of aoi)
    (fst (finalize R StatusInternalError soln rc outputDir aoi execConfig result)).
Proof.
  destruct (finalize_ends_with_complete soln rc outputDir aoi execConfig result)
    as (before & -> & Hbefore).
  apply Forall_app. split; [exact Hbefore | repeat constructor].
Qed.

(** *** The five ways a claimed task is processed *)


(** *** What a claimed task always gets *)

(** X10. The temporary output directory is removed exactly once, as the
    last effect of [run], on every way out once it has been created (failed
    build, executor error, timeout, OOM, normal exit); when the judge
    configuration does not parse or the directory cannot be created,
    nothing is removed. *)
Theorem X10_output_directory_removed_once (m : Manager.t) (soln : SolutionPoll.t) :
  let config_text :=
    JudgeConfig.Config (ProblemConfig.Judge (SolutionPoll.ProblemConfig soln)) in
  let pattern := ("judge-output-" ++ SolutionPoll.SolutionId soln ++ "-")%string in
  let trace := fst (run R StatusInternalError m soln) in
  (forall (rc : RunningConfig.t) (outputDir : string),
      Runtime.json_Unmarshal_RunningConfig R config_text = inr rc ->
      Runtime.os_MkdirTemp R pattern = inr outputDir ->
      exists before : list Event,
        trace = before ++ [RemoveAll outputDir]
        /\ List.filter is_remove before = [])
  /\ ((exists e, Runtime.json_Unmarshal_RunningConfig R config_text = inl e)
      \/ (exists e, Runtime.os_MkdirTemp R pattern = inl e) ->
      List.filter is_remove trace = []).
Proof.
  cbv zeta. rewrite run_shape. cbv zeta. split.
  - intros rc outputDir -> ->.
    destruct (buildExecuteConfig R m soln rc outputDir) as [e | config].
    { now exists [Patch (Solution soln) (SolutionInfo.mk f64_zero "Running" "评测开始")]. }
    set (response := DockerExecutor.ExecuteWithLogs _ _ _).
    destruct (streamed_queue_calls (Solution soln) (fst response)) as [Hs _].
    apply queue_calls_no_local_effect in Hs as [Hs _].
    destruct (snd response) as [e | result]; cbn [fst].
    + eexists. split; [reflexivity |]. simpl. exact Hs.
    + pose proof (finalize_queue_calls soln rc outputDir (Solution soln) config result)
        as Hf.
      apply queue_calls_no_local_effect in Hf as [Hf _].
      eexists (_ ++ _). split; [now rewrite <- List.app_assoc |].
      rewrite List.filter_app, Hf. simpl. now rewrite Hs.
  - intros [[e ->] | [e He]]; [reflexivity |].
    destruct (Runtime.json_Unmarshal_RunningConfig R _); [reflexivity |].
    now rewrite He.
Qed.




(** *** Who has the last word on the result *)

Lemma process_report_silent (soln : SolutionPoll.t) (rc : RunningConfig.t)
    (outputDir : string) (aoi : SolutionClient.t) :
  JudgeConfig.Adapter (ProblemConfig.Judge (SolutionPoll.ProblemConfig soln)) <> "lfs1"
  \/ Runtime.os_Stat R (Runtime.filepath_Join R outputDir (reportFileName rc)) = false ->
  process_report R StatusInternalError soln rc outputDir aoi = ([], inr false).
Proof.
  intros [Hadapter | Hstat]; unfold process_report.
  - apply String.eqb_neq in Hadapter. now rewrite Hadapter.
  - rewrite Hstat. now destruct (String.eqb _ "lfs1").
Qed.

Lemma apply_trace_then_complete (aoi : SolutionClient.t) (q : Solution.t)
    (t : list Event) (outputDir : string) :
  Solution.Info (apply_trace aoi q (t ++ [Complete aoi; RemoveAll outputDir]))
  = Solution.Info (apply_trace aoi q t)
  /\ Solution.Details (apply_trace aoi q (t ++ [Complete aoi; RemoveAll outputDir]))
     = Solution.Details (apply_trace aoi q t).
Proof.
  rewrite apply_trace_app. unfold apply_trace at 1 3. simpl.
  now rewrite same_client_refl.
Qed.

Lemma apply_trace_report (aoi : SolutionClient.t) (q : Solution.t) (t tail : list Event)
    (info : SolutionInfo.t) (details : SolutionDetails.t) :
  Forall (fun e => match e with Patch _ _ | SaveDetails _ _ => False | _ => True end) tail ->
  Solution.Info (apply_trace aoi q (t ++ Patch aoi info :: SaveDetails aoi details :: tail))
  = Some info
  /\ Solution.Details
       (apply_trace aoi q (t ++ Patch aoi info :: SaveDetails aoi details :: tail))
     = Some details.
Proof.
  intros Htail. rewrite apply_trace_app. unfold apply_trace at 1 3.
  cbn [List.fold_left apply]. rewrite !same_client_refl. cbn [Solution.Info Solution.Details].
  set (q' := Solution.mk (Some info) (Some details) _).
  assert (Hq : Solution.Info q' = Some info /\ Solution.Details q' = Some details)
    by now split.
  clearbody q'. revert q' Hq.
  induction Htail as [| e tail He _ IH]; intros q' Hq; [exact Hq |].
  cbn [List.fold_left]. apply IH.
  destruct e; simpl in He; try contradiction; simpl; try exact Hq.
  now destruct (same_client aoi aoi0).
Qed.

Section Reached.

Variable m : Manager.t.
Variable soln : SolutionPoll.t.
Variable rc : RunningConfig.t.
Variable outputDir : string.
Variable config : ExecuteConfig.t.
Variable lines : list string.

Hypothesis Hclaimed : claimed soln.
Hypothesis Hparse :
  Runtime.json_Unmarshal_RunningConfig R
    (JudgeConfig.Config (ProblemConfig.Judge (SolutionPoll.ProblemConfig soln))) = inr rc.
Hypothesis Hmkdir :
  Runtime.os_MkdirTemp R ("judge-output-" ++ SolutionPoll.SolutionId soln ++ "-")%string
  = inr outputDir.
Hypothesis Hbuild : buildExecuteConfig R m soln rc outputDir = inr config.

(** X13. When the sandbox exits with code 0, untimed and within memory,
    and no report is looked up (the task declares another adapter than
    [lfs1]) or none is present, the orchestrator adds nothing but the
    complete call: the solution record ends with what the last Patch and
    Detail messages of the sandbox said, or with the initial Running
    patch when there were none. *)
Theorem X13_clean_exit_keeps_sandbox_report (result : ExecuteResult.t) (q : Solution.t) :
  DockerExecutor.ExecuteWithLogs (Manager.exec m) (context_timeout config) config
  = (lines, inr result) ->
  ExecuteResult.TimedOut result = false ->
  ExecuteResult.OOM result = false ->
  ExecuteResult.ExitCode result = 0 ->
  JudgeConfig.Adapter (ProblemConfig.Judge (SolutionPoll.ProblemConfig soln)) <> "lfs1"
  \/ Runtime.os_Stat R (Runtime.filepath_Join R outputDir (reportFileName rc)) = false ->
  let aoi := Solution soln in
  let trace := Start_iteration R StatusInternalError m (inr soln) in
  let reported :=
    Patch aoi (SolutionInfo.mk f64_zero "Running" "评测开始")
      :: streamed_of R StatusInternalError aoi lines in
  trace = (Patch aoi (SolutionInfo.mk f64_zero "Running" "评测开始")
             :: Execute (context_timeout config) config
             :: streamed_of R StatusInternalError aoi lines)
            ++ [Complete aoi; RemoveAll outputDir]
  /\ Solution.Info (apply_trace aoi q trace) = Solution.Info (apply_trace aoi q reported)
  /\ Solution.Details (apply_trace aoi q trace)
     = Solution.Details (apply_trace aoi q reported).
Proof.
  intros Hexec Ht Ho Hcode Hnone. cbv zeta.
  rewrite (dispatched_trace R StatusInternalError m soln rc outputDir config lines result
             Hclaimed Hparse Hmkdir Hbuild Hexec).
  rewrite (finalize_normal R StatusInternalError) by assumption.
  pose proof (process_report_value R StatusInternalError soln rc outputDir (Solution soln))
    as Hvalue.
  rewrite (process_report_silent _ _ _ _ Hnone) in *. simpl in Hvalue.
  injection Hvalue as <-. rewrite Hcode.
  set (started := _ :: _ :: streamed_of _ _ _ _).
  cbn [fst negb andb Z.eqb app].
  split; [reflexivity |].
  destruct (apply_trace_then_complete (Solution soln) q started outputDir)
    as [Hinfo Hdetails].
  split; [rewrite Hinfo | rewrite Hdetails]; reflexivity.
Qed.


(** X15. When the executor itself fails, after having delivered any
    number of lines, the output directory is removed and the failure is
    reported: the solution record ends with score 0, status Error and the
    executor's error text in message and details, whatever the sandbox had
    sent. *)
Theorem X15_executor_error_reported (e : string) (q : Solution.t) :
  DockerExecutor.ExecuteWithLogs (Manager.exec m) (context_timeout config) config
  = (lines, inl e) ->
  let aoi := Solution soln in
  let trace := Start_iteration R StatusInternalError m (inr soln) in
  let reason := ("Failed to run solution: docker execution failed: " ++ e)%string in
  trace = (Patch aoi (SolutionInfo.mk f64_zero "Running" "评测开始")
             :: Execute (context_timeout config) config
             :: streamed_of R StatusInternalError aoi lines)
            ++ [RemoveAll outputDir;
                Patch aoi (SolutionInfo.mk f64_zero StatusError reason);
                SaveDetails aoi (SolutionDetails.mk 0 reason []);
                Complete aoi]
  /\ Solution.Info (apply_trace aoi q trace)
     = Some (SolutionInfo.mk f64_zero StatusError reason)
  /\ Solution.Details (apply_trace aoi q trace) = Some (SolutionDetails.mk 0 reason []).
Proof.
  intros Hexec. cbv zeta.
  assert (Htrace :
    Start_iteration R StatusInternalError m (inr soln)
    = ((Patch (Solution soln) (SolutionInfo.mk f64_zero "Running" "评测开始")
          :: Execute (context_timeout config) config
          :: streamed_of R StatusInternalError (Solution soln) lines)
         ++ [RemoveAll outputDir])
        ++ [Patch (Solution soln)
              (SolutionInfo.mk f64_zero StatusError
                 ("Failed to run solution: docker execution failed: " ++ e)%string);
            SaveDetails (Solution soln)
              (SolutionDetails.mk 0
                 ("Failed to run solution: docker execution failed: " ++ e)%string []);
            Complete (Solution soln)]).
  { rewrite (Start_iteration_claimed R StatusInternalError m soln Hclaimed).
    rewrite run_shape. cbv zeta. now rewrite Hparse, Hmkdir, Hbuild, Hexec. }
  split; [rewrite Htrace; now rewrite <- List.app_assoc |].
  rewrite Htrace. apply apply_trace_report. repeat constructor.
Qed.



End Reached.

(** X16. When the judge configuration parses but declares no command, and
    the output directory can be created, the task is processed as exactly
    five effects: the Running patch, the removal of the directory, and the
    failure report (patch with status Error, details, complete) with one
    fixed text. The queue is written to although no container ever runs. *)
Theorem X16_missing_command_trace (m : Manager.t) (soln : SolutionPoll.t)
    (rc : RunningConfig.t) (outputDir : string) :
  claimed soln ->
  Runtime.json_Unmarshal_RunningConfig R
    (JudgeConfig.Config (ProblemConfig.Judge (SolutionPoll.ProblemConfig soln))) = inr rc ->
  RunningConfig.DockerCmd rc = [] ->
  Runtime.os_MkdirTemp R ("judge-output-" ++ SolutionPoll.SolutionId soln ++ "-")%string
  = inr outputDir ->
  let aoi := Solution soln in
  let reason :=
    "Failed to run solution: failed to build execute config: docker_cmd is required in judge config" in
  Start_iteration R StatusInternalError m (inr soln)
  = [Patch aoi (SolutionInfo.mk f64_zero "Running" "评测开始");
     RemoveAll outputDir;
     Patch aoi (SolutionInfo.mk f64_zero StatusError reason);
     SaveDetails aoi (SolutionDetails.mk 0 reason []);
     Complete aoi].
Proof.
  intros Hc Hparse Hcmd Hmkdir. cbv zeta.
  rewrite (Start_iteration_claimed R StatusInternalError m soln Hc).
  rewrite run_shape. cbv zeta. rewrite Hparse, Hmkdir.
  unfold buildExecuteConfig. rewrite Hcmd. reflexivity.
Qed.

(** X17. Each output line leads to at most one call on the queue, and that
    call is for the task at hand: the calls made for the whole output are
    no more than the lines. *)
Theorem X17_one_call_per_line (aoi : SolutionClient.t) (lines : list string) :
  (forall line : string,
      (length (processMessage R StatusInternalError line aoi) <= 1)%nat)
  /\ (length (streamed_of R StatusInternalError aoi lines) <= length lines)%nat
  /\ Forall (queue_call_of aoi) (streamed_of R StatusInternalError aoi lines).
Proof.
  split; [intros line; apply processMessage_queue_calls |].
  destruct (streamed_queue_calls aoi lines) as [Hq Hl]. now split.
Qed.

(** *** The loop over the polls *)







(** [ParsePytestReport] returns a report exactly when the file reads and
    its bytes decode; otherwise its error names the step that failed,
    reading or parsing, followed by that step's own error. *)
Lemma ParsePytestReport_steps (path : string) :
  (forall report : adapters.PytestReport.t,
      ParsePytestReport R path = inr report
      <-> exists data : string,
            Runtime.os_ReadFile R path = inr data
            /\ Runtime.json_Unmarshal_PytestReport R data = inr report)
  /\ (forall err : string,
        ParsePytestReport R path = inl err
        <-> (exists e, Runtime.os_ReadFile R path = inl e
                       /\ err = ("failed to read report file: " ++ e)%string)
            \/ (exists data e,
                   Runtime.os_ReadFile R path = inr data
                   /\ Runtime.json_Unmarshal_PytestReport R data = inl e
                   /\ err = ("failed to parse report JSON: " ++ e)%string)).
Proof.
  unfold ParsePytestReport, ParsePytestReportFromBytes.
  destruct (Runtime.os_ReadFile R path) as [e | data].
  - split.
    + intros report. split; [discriminate | intros (data & [=] & _)].
    + intros err. split.
      * intros [= <-]. left. now exists e.
      * intros [(e' & [= <-] & ->) | (data & e' & [=] & _)]. reflexivity.
  - destruct (Runtime.json_Unmarshal_PytestReport R data) as [e | report'] eqn:Hdata.
    + split.
      * intros report. split; [discriminate |].
        intros (data' & [= <-] & Hd). congruence.
      * intros err. split.
        -- intros [= <-]. right. now exists data, e.
        -- intros [(e' & [=] & _) | (data' & e' & [= <-] & Hd & ->)]. congruence.
    + split.
      * intros report. split.
        -- intros [= <-]. now exists data.
        -- intros (data' & [= <-] & Hd). congruence.
      * intros err. split; [discriminate |].
        intros [(e' & [=] & _) | (data' & e' & [= <-] & Hd & _)]. congruence.
Qed.


End RunExtras.

(** ** Start-up and shutdown *)

Section Lifecycle.

Import lifecycle.

(** X19. [Init] on a new manager succeeds exactly when the executor can be
    created and the runner id or the runner key is non-empty: one of the
    two suffices, although the error text asks for both. An executor error
    comes first and leaves the manager as it was. Once the executor has
    been created it is kept, so that [Close] closes it, even when [Init]
    then fails for missing credentials and no queue client is set. *)
Theorem X19_Init_credentials (NewDockerExecutor : string + DockerExecutor.t)
    (Endpoint RunnerID RunnerKey : string) :
  let after := Init NewDockerExecutor Endpoint RunnerID RunnerKey NewManager in
  (snd after = None
   <-> (exists exec, NewDockerExecutor = inr exec) /\ (RunnerID <> "" \/ RunnerKey <> ""))
  /\ (forall err, NewDockerExecutor = inl err ->
        after = (NewManager, Some err))
  /\ (forall exec, NewDockerExecutor = inr exec ->
        Close (fst after) = Some exec
        /\ (RunnerID = "" -> RunnerKey = "" ->
            snd after = Some "runner ID and key must be provided"
            /\ Handles.aoi (fst after) = None)
        /\ (RunnerID <> "" \/ RunnerKey <> "" ->
            Handles.aoi (fst after) = Some (Client.mk Endpoint RunnerID RunnerKey))).
Proof.
  cbv zeta. unfold Init.
  destruct NewDockerExecutor as [err | exec].
  - split; [| split].
    + split; [discriminate | intros [[exec Hexec] _]; discriminate].
    + intros e [= <-]. reflexivity.
    + intros exec [=].
  - cbv zeta.
    set (ok := negb (String.eqb RunnerID "") || negb (String.eqb RunnerKey "")).
    assert (Hok : ok = true <-> RunnerID <> "" \/ RunnerKey <> "").
    { unfold ok. rewrite orb_true_iff, !negb_true_iff, !String.eqb_neq. tauto. }
    destruct ok; cbn [fst snd Handles.exec Handles.aoi Close].
    + split; [| split].
      * split; [intros _; split; [now exists exec | now apply Hok] | reflexivity].
      * intros e [=].
      * intros exec' [= <-]. split; [reflexivity |]. split.
        -- intros Hid Hkey. destruct (proj1 Hok eq_refl); contradiction.
        -- intros _. reflexivity.
    + split; [| split].
      * split; [discriminate | intros [_ H]; apply Hok in H; discriminate].
      * intros e [=].
      * intros exec' [= <-]. split; [reflexivity |]. split.
        -- intros _ _. split; reflexivity.
        -- intros H. apply Hok in H. discriminate.
Qed.

End Lifecycle.

(** ** The first revision of the orchestrator *)

Section FirstRevision.

Import queue observe observe2.

Local Open Scope list_scope.

Variable R : Runtime.t.
Variable StatusInternalError : string.

Lemma v1_finalize_shape (aoi : SolutionClient.t) (config : ExecuteConfig.t)
    (result : ExecuteResult.t) :
  manager_v1.finalize aoi config result
  = ((if ExecuteResult.TimedOut result
      then [Patch aoi (SolutionInfo.mk f64_zero StatusTimeLimitExceeded
                         ("评测超时（限制 " ++ fmt_d (ExecuteConfig.Timeout config)
                            ++ " 秒）")%string);
            SaveDetails aoi (SolutionDetails.mk 0
                               ("评测超时，时间限制 "
                                  ++ fmt_d (ExecuteConfig.Timeout config) ++ " 秒")%string
                               [])]
      else [])
       ++ (if ExecuteResult.OOM result
           then [Patch aoi (SolutionInfo.mk f64_zero StatusMemoryLimitExceeded
                              ("内存超限（限制 " ++ fmt_d (ExecuteConfig.MemoryLimit config)
                                 ++ " MB）")%string);
                 SaveDetails aoi (SolutionDetails.mk 0
                                    ("内存超限，内存限制 "
                                       ++ fmt_d (ExecuteConfig.MemoryLimit config)
                                       ++ " MB")%string [])]
           else [])
       ++ [Complete aoi],
     inr tt).
Proof.
  unfold manager_v1.finalize.
  now destruct (ExecuteResult.TimedOut result), (ExecuteResult.OOM result).
Qed.

Section ReachedV1.

Variable m : Manager.t.
Variable soln : SolutionPoll.t.
Variable rc : RunningConfig.t.
Variable config : ExecuteConfig.t.
Variable lines : list string.
Variable result : ExecuteResult.t.

Hypothesis Hclaimed : claimed soln.
Hypothesis Hparse :
  Runtime.json_Unmarshal_RunningConfig R
    (JudgeConfig.Config (ProblemConfig.Judge (SolutionPoll.ProblemConfig soln))) = inr rc.
Hypothesis Hbuild : manager_v1.buildExecuteConfig R m soln rc = inr config.
Hypothesis Hexec :
  DockerExecutor.ExecuteWithLogs (Manager.exec m) (context_timeout config) config
  = (lines, inr result).

Lemma v1_reached_trace :
  manager_v1.Start_iteration R StatusInternalError m (inr soln)
  = (Patch (Solution soln) (SolutionInfo.mk f64_zero "Running" "评测开始")
       :: Execute (context_timeout config) config
       :: streamed_of R StatusInternalError (Solution soln) lines)
      ++ fst (manager_v1.finalize (Solution soln) config result).
Proof.
  destruct Hclaimed as [Hs Ht].
  apply String.eqb_neq in Hs. apply String.eqb_neq in Ht.
  unfold manager_v1.Start_iteration, manager_v1.run. rewrite Hs, Ht. cbn [orb].
  rewrite Hparse. cbn [try bind ret emit]. rewrite Hbuild. cbn [try bind ret emit].
  rewrite Hexec. cbn [try bind ret emit emits].
  rewrite v1_finalize_shape. reflexivity.
Qed.

(** X20. In the first revision the two outcome checks do not return: when
    the executor reports a timeout together with an OOM kill, the Time
    Limit Exceeded patch is followed by the Memory Limit Exceeded patch,
    and the solution record ends with score 0 and status Memory Limit
    Exceeded; with a single flag it ends with that flag's status. One
    complete call follows, as the last effect. *)
Theorem X20_first_revision_oom_has_last_word (q : Solution.t) :
  ExecuteResult.TimedOut result = true \/ ExecuteResult.OOM result = true ->
  let aoi := Solution soln in
  let trace := manager_v1.Start_iteration R StatusInternalError m (inr soln) in
  let status :=
    if ExecuteResult.OOM result
    then StatusMemoryLimitExceeded else StatusTimeLimitExceeded in
  exists (before : list Event) (message summary : string),
    trace = before
              ++ [Patch aoi (SolutionInfo.mk f64_zero status message);
                  SaveDetails aoi (SolutionDetails.mk 0 summary []);
                  Complete aoi]
    /\ Solution.Info (apply_trace aoi q trace)
       = Some (SolutionInfo.mk f64_zero status message)
    /\ (ExecuteResult.TimedOut result = true -> ExecuteResult.OOM result = true ->
        exists timeout_message : string,
          In (Patch aoi (SolutionInfo.mk f64_zero StatusTimeLimitExceeded timeout_message))
            before).
Proof.
  intros Hflag. cbv zeta. rewrite v1_reached_trace, v1_finalize_shape. cbn [fst].
  set (started := _ :: _ :: streamed_of _ _ _ _).
  destruct (ExecuteResult.OOM result) eqn:Ho.
  - destruct (ExecuteResult.TimedOut result) eqn:Ht.
    + eexists (started ++ [_; _]), _, _. split; [now rewrite <- List.app_assoc |].
      split.
      * rewrite List.app_assoc. apply apply_trace_report. repeat constructor.
      * intros _ _. eexists. apply List.in_or_app. right. left. reflexivity.
    + eexists started, _, _. split; [reflexivity |].
      split; [apply apply_trace_report; repeat constructor | discriminate].
  - destruct Hflag as [Ht | Hf]; [| discriminate]. rewrite Ht.
    eexists started, _, _. split; [reflexivity |].
    split; [apply apply_trace_report; repeat constructor | discriminate].
Qed.

(** X21. In the first revision a run without timeout and OOM is never
    overridden, whatever the exit code: after the streamed calls the
    orchestrator only completes, and the solution record ends with what the
    sandbox itself reported, or with the Running patch. *)
Theorem X21_first_revision_never_overrides_exit_code (q : Solution.t) :
  ExecuteResult.TimedOut result = false ->
  ExecuteResult.OOM result = false ->
  let aoi := Solution soln in
  let trace := manager_v1.Start_iteration R StatusInternalError m (inr soln) in
  let reported :=
    Patch aoi (SolutionInfo.mk f64_zero "Running" "评测开始")
      :: streamed_of R StatusInternalError aoi lines in
  trace = (Patch aoi (SolutionInfo.mk f64_zero "Running" "评测开始")
             :: Execute (context_timeout config) config
             :: streamed_of R StatusInternalError aoi lines)
            ++ [Complete aoi]
  /\ Solution.Info (apply_trace aoi q trace) = Solution.Info (apply_trace aoi q reported)
  /\ Solution.Details (apply_trace aoi q trace)
     = Solution.Details (apply_trace aoi q reported).
Proof.
  intros Ht Ho. cbv zeta. rewrite v1_reached_trace, v1_finalize_shape, Ht, Ho.
  set (started := _ :: _ :: streamed_of _ _ _ _).
  cbn [fst app]. split; [reflexivity |].
  assert (Hlast : apply_trace (Solution soln) q (started ++ [Complete (Solution soln)])
                  = apply (Solution soln) (apply_trace (Solution soln) q started)
                      (Complete (Solution soln))).
  { now rewrite apply_trace_app. }
  rewrite Hlast. cbn [apply]. rewrite same_client_refl.
  split; reflexivity.
Qed.

End ReachedV1.

(** X22. The two revisions of [buildExecuteConfig] fail on the same judge
    configurations with the same error, and otherwise build the same
    specification except for the output directory, which only the second
    revision knows: its environment is the first revision's with
    [OUTPUT_DIR] bound to [/output], and its mount list is the first
    revision's behind the mount of the output directory. *)
Theorem X22_revisions_build_same_spec (m : Manager.t) (soln : SolutionPoll.t)
    (rc : RunningConfig.t) (outputDir : string) :
  match manager_v1.buildExecuteConfig R m soln rc,
        buildExecuteConfig R m soln rc outputDir with
  | inl e1, inl e2 => e1 = e2
  | inr c1, inr c2 =>
      ExecuteConfig.Image c2 = ExecuteConfig.Image c1
      /\ ExecuteConfig.Command c2 = ExecuteConfig.Command c1
      /\ ExecuteConfig.Timeout c2 = ExecuteConfig.Timeout c1
      /\ ExecuteConfig.MemoryLimit c2 = ExecuteConfig.MemoryLimit c1
      /\ ExecuteConfig.CPULimit c2 = ExecuteConfig.CPULimit c1
      /\ ExecuteConfig.WorkDir c2 = ExecuteConfig.WorkDir c1
      /\ ExecuteConfig.Env c2 = <["OUTPUT_DIR" := "/output"]> (ExecuteConfig.Env c1)
      /\ ExecuteConfig.Mounts c2
         = Mount.mk outputDir "/output" false :: ExecuteConfig.Mounts c1
  | _, _ => False
  end.
Proof.
  unfold manager_v1.buildExecuteConfig, buildExecuteConfig.
  destruct (length (RunningConfig.DockerCmd rc) =? 0)%nat; [reflexivity |].
  cbn [ExecuteConfig.Image ExecuteConfig.Command ExecuteConfig.Timeout
       ExecuteConfig.MemoryLimit ExecuteConfig.CPULimit ExecuteConfig.WorkDir
       ExecuteConfig.Env ExecuteConfig.Mounts].
  repeat split.
  unfold build_mounts, manager_v1.build_mounts. cbv zeta.
  now destruct (negb _).
Qed.

End FirstRevision.

(** ** From the adapter in the container to the queue *)

Section Printing.

Import queue observe observe2 printing.

Local Open Scope list_scope.

Variable R : Runtime.t.
Variable StatusInternalError : string.

(** The calls a printed message leads to once its line is decoded. *)
Lemma processMessage_reads_as (aoi : SolutionClient.t) (line : string) (p : Printed) :
  reads_as R line p ->
  processMessage R StatusInternalError line aoi
  = match p with
    | PrintError err => [Patch aoi (SolutionInfo.mk f64_zero StatusInternalError err)]
    | PrintPatch body => [Patch aoi body]
    | PrintDetail body => [SaveDetails aoi body]
    | PrintComplete => [Complete aoi]
    end.
Proof.
  intros (parsed & Hparsed & Hp). unfold processMessage. rewrite Hparsed.
  destruct p; [destruct Hp as [-> ->] .. | rewrite Hp]; reflexivity.
Qed.

(** X23. When the container runs [ProcessAndPrint] on a report that reads
    and parses, and the orchestrator's decoder reads the three printed
    lines back as they were printed, the orchestrator patches the score,
    status and message of [CalculateScore], saves its details and
    completes, in that order, and [ProcessAndPrint] returns no error; when
    the report does not parse, a single Error message is printed, which the
    orchestrator turns into a patch with score 0, the internal-error status
    and the error text, and the error is returned. *)
Theorem X23_ProcessAndPrint_reaches_queue (aoi : SolutionClient.t)
    (print : Printed -> string) (reportPath : string) :
  Forall (fun p => reads_as R (print p) p) (fst (ProcessAndPrint R reportPath)) ->
  match ParsePytestReport R reportPath with
  | inr report =>
      let r := adapters.CalculateScore report in
      streamed_of R StatusInternalError aoi
        (List.map print (fst (ProcessAndPrint R reportPath)))
      = [Patch aoi (SolutionInfo.mk (adapters.LFS1Result.Score r)
                      (adapters.LFS1Result.Status r) (adapters.LFS1Result.Message r));
         SaveDetails aoi (adapters.LFS1Result.Details r);
         Complete aoi]
      /\ snd (ProcessAndPrint R reportPath) = None
  | inl err =>
      streamed_of R StatusInternalError aoi
        (List.map print (fst (ProcessAndPrint R reportPath)))
      = [Patch aoi (SolutionInfo.mk f64_zero StatusInternalError err)]
      /\ snd (ProcessAndPrint R reportPath) = Some err
  end.
Proof.
  unfold ProcessAndPrint.
  destruct (ParsePytestReport R reportPath) as [err | report]; cbn [fst snd]; intros Hread.
  - inversion Hread as [| p ps Hp _]; subst.
    split; [| reflexivity]. cbn [List.map]. rewrite streamed_cons.
    now rewrite (processMessage_reads_as aoi _ _ Hp).
  - inversion Hread as [| p1 ps1 Hp1 Hrest1]; subst.
    inversion Hrest1 as [| p2 ps2 Hp2 Hrest2]; subst.
    inversion Hrest2 as [| p3 ps3 Hp3 _]; subst.
    split; [| reflexivity]. cbn [List.map]. rewrite !streamed_cons.
    rewrite (processMessage_reads_as aoi _ _ Hp1), (processMessage_reads_as aoi _ _ Hp2),
      (processMessage_reads_as aoi _ _ Hp3).
    reflexivity.
Qed.

End Printing.

(** ** The further statements at concrete tasks *)

Section FurtherInstances.

Import queue observe observe2.

Local Open Scope list_scope.

Lemma X6_witness_rich_config :
  let rt := scenario.runtime (inr scenario2.rich_config) false scenario.no_report in
  let m := scenario2.shared_grader [] scenario.exit_ok in
  exists config : ExecuteConfig.t,
    buildExecuteConfig rt m scenario.task scenario2.rich_config "/tmp/out" = inr config
    /\ ExecuteConfig.Image config = RunningConfig.Image scenario2.rich_config
    /\ ExecuteConfig.Command config = RunningConfig.DockerCmd scenario2.rich_config
    /\ ExecuteConfig.CPULimit config = RunningConfig.CPULimit scenario2.rich_config
    /\ ExecuteConfig.Command config <> []
    /\ ExecuteConfig.WorkDir config <> ""
    /\ (RunningConfig.WorkDir scenario2.rich_config = "" ->
        ExecuteConfig.WorkDir config = "/home/judge")
    /\ (RunningConfig.WorkDir scenario2.rich_config <> "" ->
        ExecuteConfig.WorkDir config = RunningConfig.WorkDir scenario2.rich_config)
    /\ ExecuteConfig.Timeout config <> 0
    /\ ExecuteConfig.MemoryLimit config <> 0.
Proof.
  cbv zeta. eexists. split; [reflexivity |].
  apply (X6_built_spec_invariants
           (scenario.runtime (inr scenario2.rich_config) false scenario.no_report)
           (scenario2.shared_grader [] scenario.exit_ok)
           scenario.task scenario2.rich_config "/tmp/out").
  reflexivity.
Defined.

Lemma X7_witness_custom_variable :
  let rt := scenario.runtime (inr scenario2.rich_config) false scenario.no_report in
  let m := scenario2.shared_grader [] scenario.exit_ok in
  exists config : ExecuteConfig.t,
    buildExecuteConfig rt m scenario.task scenario2.rich_config "/tmp/out" = inr config
    /\ ExecuteConfig.Env config !! "LANG"
       = RunningConfig.Env scenario2.rich_config !! "LANG".
Proof.
  cbv zeta. eexists. split; [reflexivity |].
  apply (X7_custom_env_passes_through
           (scenario.runtime (inr scenario2.rich_config) false scenario.no_report)
           (scenario2.shared_grader [] scenario.exit_ok)
           scenario.task scenario2.rich_config "/tmp/out").
  - reflexivity.
  - simpl. intros H. repeat (destruct H as [H | H]; [discriminate |]). exact H.
Defined.

Lemma X8_witness_shared_volume :
  let rt := scenario.runtime (inr scenario2.rich_config) false scenario.no_report in
  let m := scenario2.shared_grader [] scenario.exit_ok in
  exists config : ExecuteConfig.t,
    buildExecuteConfig rt m scenario.task scenario2.rich_config "/tmp/out" = inr config
    /\ let mounts := ExecuteConfig.Mounts config in
       let declared := RunningConfig.Mounts scenario2.rich_config in
       let shared := ManagerConfig.SharedVolumePath (Manager.conf m) in
       mounts !! 0%nat = Some (Mount.mk "/tmp/out" "/output" false)
       /\ (forall (i : nat) (mount : MountConfig.t),
             declared !! i = Some mount ->
             mounts !! S i
             = Some (Mount.mk (MountConfig.Source mount) (MountConfig.Target mount)
                       (MountConfig.ReadOnly mount)))
       /\ (shared = "" -> length mounts = S (length declared))
       /\ (shared <> "" ->
           length mounts = S (S (S (length declared)))
           /\ mounts !! S (length declared) = Some (Mount.mk shared "/data" true)
           /\ mounts !! S (S (length declared))
              = Some (Mount.mk (shared ++ "/uv-cache")%string "/root/.cache/uv" false)).
Proof.
  cbv zeta. eexists. split; [reflexivity |].
  apply (X8_mount_layout
           (scenario.runtime (inr scenario2.rich_config) false scenario.no_report)
           (scenario2.shared_grader [] scenario.exit_ok)
           scenario.task scenario2.rich_config "/tmp/out").
  reflexivity.
Defined.

Lemma X9_witness_five_minutes :
  let rt := scenario.runtime (inr scenario2.rich_config) false scenario.no_report in
  let m := scenario2.shared_grader [] scenario.exit_ok in
  exists config : ExecuteConfig.t,
    buildExecuteConfig rt m scenario.task scenario2.rich_config "/tmp/out" = inr config
    /\ context_timeout config = (ExecuteConfig.Timeout config + 10) * 1000000000
    /\ (RunningConfig.Timeout scenario2.rich_config = 0 ->
        context_timeout config = 610000000000)
    /\ 0 < context_timeout config.
Proof.
  cbv zeta. eexists. split; [reflexivity |].
  apply (X9_deadline_is_timeout_plus_grace
           (scenario.runtime (inr scenario2.rich_config) false scenario.no_report)
           (scenario2.shared_grader [] scenario.exit_ok)
           scenario.task scenario2.rich_config "/tmp/out").
  - reflexivity.
  - simpl. lia.
Defined.


Lemma X13_witness_patch_then_exit_0 :
  let rt := scenario2.runtime (inr scenario.plain_config) false scenario.no_report in
  let m := scenario.grader [scenario.chatter_line; scenario2.patch_line] scenario.exit_ok in
  let aoi := Solution scenario2.plain_task in
  let trace := Start_iteration rt scenario.internal_error m (inr scenario2.plain_task) in
  Solution.Info (apply_trace aoi scenario.fresh_record trace) = Some scenario2.patch_body.
Proof.
  cbv zeta.
  evar (cfg : ExecuteConfig.t).
  edestruct (X13_clean_exit_keeps_sandbox_report
               (scenario2.runtime (inr scenario.plain_config) false scenario.no_report)
               scenario.internal_error
               (scenario.grader [scenario.chatter_line; scenario2.patch_line]
                  scenario.exit_ok)
               scenario2.plain_task scenario.plain_config
               "/tmp/judge-output-sol_abc123-1" cfg
               [scenario.chatter_line; scenario2.patch_line])
    as (_ & Hinfo & _).
  - split; discriminate.
  - try unfold cfg; reflexivity.
  - try unfold cfg; reflexivity.
  - try unfold cfg; reflexivity.
  - try unfold cfg; reflexivity.
  - try unfold cfg; reflexivity.
  - try unfold cfg; reflexivity.
  - try unfold cfg; reflexivity.
  - left. discriminate.
  - rewrite Hinfo. reflexivity.
Defined.


Lemma X15_witness_daemon_unreachable :
  let rt := scenario.runtime (inr scenario.plain_config) false scenario.no_report in
  let m := scenario.grader [scenario.complete_line] (inl "daemon unreachable") in
  let aoi := Solution scenario.task in
  let trace := Start_iteration rt scenario.internal_error m (inr scenario.task) in
  Solution.Info (apply_trace aoi scenario.fresh_record trace)
  = Some (SolutionInfo.mk f64_zero StatusError
            "Failed to run solution: docker execution failed: daemon unreachable").
Proof.
  cbv zeta.
  evar (cfg : ExecuteConfig.t).
  edestruct (X15_executor_error_reported
               (scenario.runtime (inr scenario.plain_config) false scenario.no_report)
               scenario.internal_error
               (scenario.grader [scenario.complete_line] (inl "daemon unreachable"))
               scenario.task scenario.plain_config
               "/tmp/judge-output-sol_abc123-1" cfg
               [scenario.complete_line])
    as (_ & Hinfo & _).
  - split; discriminate.
  - try unfold cfg; reflexivity.
  - try unfold cfg; reflexivity.
  - try unfold cfg; reflexivity.
  - try unfold cfg; reflexivity.
  - exact Hinfo.
Defined.

Lemma X16_witness_no_command :
  let rt := scenario.runtime (inr scenario.no_command_config) false scenario.no_report in
  let m := scenario.grader [] scenario.exit_ok in
  let aoi := Solution scenario.task in
  let reason :=
    "Failed to run solution: failed to build execute config: docker_cmd is required in judge config" in
  Start_iteration rt scenario.internal_error m (inr scenario.task)
  = [Patch aoi (SolutionInfo.mk f64_zero "Running" "评测开始");
     RemoveAll "/tmp/judge-output-sol_abc123-1";
     Patch aoi (SolutionInfo.mk f64_zero StatusError reason);
     SaveDetails aoi (SolutionDetails.mk 0 reason []);
     Complete aoi].
Proof.
  apply (X16_missing_command_trace
           (scenario.runtime (inr scenario.no_command_config) false scenario.no_report)
           scenario.internal_error (scenario.grader [] scenario.exit_ok)
           scenario.task scenario.no_command_config "/tmp/judge-output-sol_abc123-1").
  - split; discriminate.
  - reflexivity.
  - reflexivity.
  - reflexivity.
Defined.

Lemma X20_witness_timeout_and_oom :
  let rt := scenario.runtime (inr scenario.limited_config) false scenario.no_report in
  let m := scenario.grader [scenario.complete_line] (inr scenario.killed_both) in
  let aoi := Solution scenario.task in
  let trace := manager_v1.Start_iteration rt scenario.internal_error m (inr scenario.task) in
  exists (before : list Event) (message summary : string),
    trace = before
              ++ [Patch aoi (SolutionInfo.mk f64_zero StatusMemoryLimitExceeded message);
                  SaveDetails aoi (SolutionDetails.mk 0 summary []);
                  Complete aoi]
    /\ Solution.Info (apply_trace aoi scenario.fresh_record trace)
       = Some (SolutionInfo.mk f64_zero StatusMemoryLimitExceeded message)
    /\ (ExecuteResult.TimedOut scenario.killed_both = true ->
        ExecuteResult.OOM scenario.killed_both = true ->
        exists timeout_message : string,
          In (Patch aoi (SolutionInfo.mk f64_zero StatusTimeLimitExceeded timeout_message))
            before).
Proof.
  eapply (X20_first_revision_oom_has_last_word
            (scenario.runtime (inr scenario.limited_config) false scenario.no_report)
            scenario.internal_error
            (scenario.grader [scenario.complete_line] (inr scenario.killed_both))
            scenario.task scenario.limited_config _
            [scenario.complete_line] scenario.killed_both).
  - split; discriminate.
  - reflexivity.
  - reflexivity.
  - reflexivity.
  - left. reflexivity.
Defined.

Lemma X21_witness_exit_1 :
  let rt := scenario2.runtime (inr scenario.plain_config) false scenario.no_report in
  let m := scenario.grader [scenario2.patch_line] (inr scenario.exit_failed) in
  let aoi := Solution scenario.task in
  let trace := manager_v1.Start_iteration rt scenario.internal_error m (inr scenario.task) in
  Solution.Info (apply_trace aoi scenario.fresh_record trace) = Some scenario2.patch_body.
Proof.
  cbv zeta.
  evar (cfg : ExecuteConfig.t).
  edestruct (X21_first_revision_never_overrides_exit_code
               (scenario2.runtime (inr scenario.plain_config) false scenario.no_report)
               scenario.internal_error
               (scenario.grader [scenario2.patch_line] (inr scenario.exit_failed))
               scenario.task scenario.plain_config cfg
               [scenario2.patch_line] scenario.exit_failed)
    as (_ & Hinfo & _).
  - split; discriminate.
  - try unfold cfg; reflexivity.
  - try unfold cfg; reflexivity.
  - try unfold cfg; reflexivity.
  - try unfold cfg; reflexivity.
  - try unfold cfg; reflexivity.
  - rewrite Hinfo. reflexivity.
Defined.

Lemma X23_witness_printed_report :
  let r := adapters.CalculateScore scenario.partial_report in
  let aoi := Solution scenario.task in
  streamed_of scenario2.printer_runtime scenario.internal_error aoi
    (List.map scenario2.encode
       (fst (printing.ProcessAndPrint scenario2.printer_runtime "/output/report.json")))
  = [Patch aoi (SolutionInfo.mk (adapters.LFS1Result.Score r)
                  (adapters.LFS1Result.Status r) (adapters.LFS1Result.Message r));
     SaveDetails aoi (adapters.LFS1Result.Details r);
     Complete aoi]
  /\ snd (printing.ProcessAndPrint scenario2.printer_runtime "/output/report.json") = None.
Proof.
  cbv zeta.
  apply (X23_ProcessAndPrint_reaches_queue scenario2.printer_runtime
           scenario.internal_error (Solution scenario.task) scenario2.encode
           "/output/report.json").
  repeat constructor; eexists; (split; [reflexivity |]); repeat split; reflexivity.
Defined.



End FurtherInstances.
